(** * Authorization and content-lifecycle rules of the forum

    A shallow embedding of the rules that decide what a viewer may list,
    edit, delete and appeal: the permission helpers of
    [client/src/lib/permissions.ts], the storage layer ([DatabaseStorage]),
    the HTTP route handlers ([registerRoutes]) and the filter pipeline of
    the section page ([client/src/pages/section.tsx]).

    Conventions.
    - JavaScript numbers that hold ids, counters and timestamps are [Z].
    - JavaScript strings are [string]; role and section names stay strings,
      as in the code, and the six role names are enumerated by [Role].
    - A table is the list of its rows, in the order the store scans them.
    - An asynchronous storage method is a function of the database value;
      a method that writes returns the new database value.
    - A route handler returns the HTTP status with its body, and the
      database value it leaves behind. *)

From Stdlib Require Import ZArith List String Ascii Bool Lia.
From Stdlib Require Import Sorted Permutation.
Import ListNotations.

Local Open Scope Z_scope.
Local Open Scope string_scope.

(** ** JavaScript primitives used by the rules *)

Module Js.

(** Property read on a [Record<string, number>]: [undefined] for a missing
    key is [None]. *)
Fixpoint record_get (tbl : list (string * Z)) (k : string) : option Z :=
  match tbl with
  | [] => None
  | (k', v) :: rest => if String.eqb k k' then Some v else record_get rest k
  end.

(** [a < b] on numbers-or-undefined: [undefined] converts to [NaN], and
    every comparison with [NaN] is [false]. *)
Definition lt (a b : option Z) : bool :=
  match a, b with
  | Some x, Some y => Z.ltb x y
  | _, _ => false
  end.

(** [a >= b] on numbers-or-undefined. *)
Definition ge (a b : option Z) : bool :=
  match a, b with
  | Some x, Some y => Z.leb y x
  | _, _ => false
  end.

(** [n || 0] on a nullable number. *)
Definition or0 (n : option Z) : Z :=
  match n with
  | Some x => x
  | None => 0
  end.

(** Truthiness of a number-or-undefined, as in [if (!req.session.userId)]. *)
Definition truthy (n : option Z) : bool :=
  match n with
  | Some x => negb (Z.eqb x 0)
  | None => false
  end.

(** [String.prototype.toLowerCase] on the Latin letters; characters are
    the 8-bit characters of [string]. *)
Definition lower_char (c : ascii) : ascii :=
  let n := nat_of_ascii c in
  if (Nat.leb 65 n && Nat.leb n 90)%bool then ascii_of_nat (n + 32) else c.

Fixpoint toLowerCase (s : string) : string :=
  match s with
  | EmptyString => EmptyString
  | String c rest => String (lower_char c) (toLowerCase rest)
  end.

(** [s.includes(q)]: [q] occurs in [s] as a contiguous substring. *)
Fixpoint includes (s q : string) : bool :=
  String.prefix q s ||
  match s with
  | EmptyString => false
  | String _ rest => includes rest q
  end.

(** Truthiness of a string: only the empty string is falsy. *)
Definition nonempty (s : string) : bool :=
  match s with
  | EmptyString => false
  | String _ _ => true
  end.

End Js.

(** ** Data model *)

(** The six role names, as listed by the keys of [ROLE_HIERARCHY],
    [ROLE_COLORS] and [ROLE_LABELS]. *)
Inductive Role : Type :=
  | R_user | R_helper | R_moderator | R_admin | R_developer | R_owner.

Definition role_name (r : Role) : string :=
  match r with
  | R_user => "user"
  | R_helper => "helper"
  | R_moderator => "moderator"
  | R_admin => "admin"
  | R_developer => "developer"
  | R_owner => "owner"
  end.

Definition all_roles : list Role :=
  [R_user; R_helper; R_moderator; R_admin; R_developer; R_owner].

(** Modelled from the spec: [shared/schema.ts], which declares the tables
    and the row types [User], [Post], [Appeal] and [PostWithAuthor], is not
    among the sources.  The fields are those of the spec's data model that
    the storage layer, the routes and the pages read or write. *)
Record User : Type := mkUser {
  user_id : Z;
  username : string;
  userId : string;
  password : string;
  role : string;
  avatar : option string;
  banner : option string;
  postCount : option Z;
  messageCount : option Z;
  badge : option string
}.

(** Modelled from the spec: row type of the [posts] table ([shared/schema.ts]
    is missing); [deleted] is the soft-delete flag, [deletedBy] the id of the
    deleting moderator, the timestamps are milliseconds. *)
Record Post : Type := mkPost {
  post_id : Z;
  title : string;
  content : string;
  section : string;
  authorId : Z;
  status : option string;
  deleted : bool;
  deletedBy : option Z;
  createdAt : Z;
  updatedAt : Z
}.

(** The [author] projection selected by [getPosts]; [None] when the left
    join finds no user row. *)
Record Author : Type := mkAuthor {
  author_id : Z;
  author_username : string;
  author_userId : string;
  author_role : string;
  author_avatar : option string;
  author_banner : option string
}.

Record PostWithAuthor : Type := mkPostWithAuthor {
  pwa_post : Post;
  pwa_author : option Author
}.

(** Modelled from the spec: row type of the [appeals] table ([shared/schema.ts]
    is missing).  [approved] is the nullable tri-state decision: [None] is
    Pending, [Some true] Approved, [Some false] Rejected. *)
Record Appeal : Type := mkAppeal {
  appeal_id : Z;
  appeal_userId : Z;
  punishmentId : Z;
  reason : string;
  approved : option bool;
  appeal_createdAt : Z
}.

Record DB : Type := mkDB {
  users : list User;
  posts : list Post;
  appeals : list Appeal
}.

(** ** [client/src/lib/permissions.ts] *)

(** The rank table.  [getPosts], the delete and revive routes and the
    section page each re-declare a local table with these same six
    entries. *)
Definition ROLE_HIERARCHY_table : list (string * Z) :=
  [ ("user", 0); ("helper", 1); ("moderator", 2);
    ("admin", 3); ("developer", 3); ("owner", 4) ].

Definition ROLE_HIERARCHY (role : string) : option Z :=
  Js.record_get ROLE_HIERARCHY_table role.

Definition canAccessSection (role section : string) : bool :=
  if String.eqb section "dev-panel"
  then String.eqb role "developer" || String.eqb role "owner"
  else true.

Definition canDeletePost (role : string) : bool :=
  Js.ge (ROLE_HIERARCHY role) (ROLE_HIERARCHY "moderator").

Definition canRevivePost (role : string) : bool :=
  Js.ge (ROLE_HIERARCHY role) (ROLE_HIERARCHY "admin").

Definition canTagBugReport (role : string) : bool :=
  String.eqb role "developer" || String.eqb role "owner".

Definition canViewAllReports (role section : string) : bool :=
  if String.eqb section "player-reports"
  then Js.ge (ROLE_HIERARCHY role) (ROLE_HIERARCHY "moderator")
  else if String.eqb section "bug-reports"
  then String.eqb role "developer" || String.eqb role "owner"
  else if String.eqb section "support-tickets"
  then Js.ge (ROLE_HIERARCHY role) (ROLE_HIERARCHY "helper")
  else false.

(** The rank of a role: its entry in the table. *)
Definition rank (r : Role) : Z := Js.or0 (ROLE_HIERARCHY (role_name r)).

(** ** The relational store, as the storage layer uses it *)

Module Sql.

(** [UPDATE t SET ... WHERE cond]: every row that satisfies the condition
    is rewritten in place; the others, and the order of rows, are kept. *)
Definition update_where {A : Type} (cond : A -> bool) (f : A -> A)
    (rows : list A) : list A :=
  map (fun r => if cond r then f r else r) rows.

(** [... RETURNING *]: the rewritten rows. *)
Definition returning {A : Type} (cond : A -> bool) (f : A -> A)
    (rows : list A) : list A :=
  map f (filter cond rows).

(** [ORDER BY key DESC].  The query names no second sort key, so the store
    is free to order rows with equal keys as it likes; this model keeps
    them in scan order (a stable insertion sort). *)
Fixpoint insert_desc {A : Type} (key : A -> Z) (x : A) (l : list A) : list A :=
  match l with
  | [] => [x]
  | y :: rest =>
      if Z.leb (key y) (key x) then x :: y :: rest
      else y :: insert_desc key x rest
  end.

Definition orderBy_desc {A : Type} (key : A -> Z) (rows : list A) : list A :=
  fold_right (insert_desc key) [] rows.

(** [a] may come before [b] in a result ordered by [key] descending. *)
Definition descending {A : Type} (key : A -> Z) (a b : A) : Prop :=
  key b <= key a.

(** What the driver makes of [eq(column, null)].  Under SQL's three-valued
    logic [column = NULL] is never true; a driver that rewrites the
    comparison to [IS NULL] selects the rows whose column is null.  The
    driver is not part of the sources, so both readings are kept. *)
Inductive NullComparison : Type :=
  | ThreeValued
  | IsNull.

Definition eq_null {A : Type} (m : NullComparison) (col : option A) : bool :=
  match m, col with
  | IsNull, None => true
  | _, _ => false
  end.

(** The next value of a [serial] primary key: larger than every id in use. *)
Definition next_id {A : Type} (id : A -> Z) (rows : list A) : Z :=
  1 + fold_right Z.max 0 (map id rows).

End Sql.

(** ** [server/storage.ts]: [DatabaseStorage] *)

Module Storage.

Definition getUser (db : DB) (id : Z) : option User :=
  find (fun u => Z.eqb (user_id u) id) (users db).

Definition author_of (u : User) : Author :=
  {| author_id := user_id u;
     author_username := username u;
     author_userId := userId u;
     author_role := role u;
     author_avatar := avatar u;
     author_banner := banner u |}.

(** [.leftJoin(users, eq(posts.authorId, users.id))] with the selected
    author columns. *)
Definition join_author (db : DB) (p : Post) : PostWithAuthor :=
  {| pwa_post := p;
     pwa_author := option_map author_of (getUser db (authorId p)) |}.

(** The [WHERE] clause that [getPosts] builds for the section [sec]. *)
Definition whereConditions (sec requesterRole : string)
    (requesterId : Z) (p : Post) : bool :=
  let in_section := String.eqb (section p) sec in
  let own := Z.eqb (authorId p) requesterId in
  if String.eqb sec "player-reports" then
    if Js.lt (ROLE_HIERARCHY requesterRole) (ROLE_HIERARCHY "moderator")
    then in_section && own else in_section
  else if String.eqb sec "bug-reports" then
    if negb (String.eqb requesterRole "developer")
       && negb (String.eqb requesterRole "owner")
    then in_section && own else in_section
  else if String.eqb sec "support-tickets" then
    if Js.lt (ROLE_HIERARCHY requesterRole) (ROLE_HIERARCHY "helper")
    then in_section && own else in_section
  else in_section.

Definition getPosts (db : DB) (sec requesterRole : string)
    (requesterId : Z) : list PostWithAuthor :=
  map (join_author db)
    (Sql.orderBy_desc createdAt
       (filter (whereConditions sec requesterRole requesterId) (posts db))).

Definition getPost (db : DB) (id : Z) : option Post :=
  find (fun p => Z.eqb (post_id p) id) (posts db).

Definition set_posts (db : DB) (ps : list Post) : DB :=
  {| users := users db; posts := ps; appeals := appeals db |}.

Definition set_users (db : DB) (us : list User) : DB :=
  {| users := us; posts := posts db; appeals := appeals db |}.

(** [Partial<{ title: string; content: string }>]. *)
Record PostUpdates : Type := mkPostUpdates {
  upd_title : option string;
  upd_content : option string
}.

(** [.set({ ...updates, updatedAt: new Date() })]. *)
Definition apply_updates (updates : PostUpdates) (now : Z) (p : Post) : Post :=
  {| post_id := post_id p;
     title := match upd_title updates with Some t => t | None => title p end;
     content :=
       match upd_content updates with Some c => c | None => content p end;
     section := section p;
     authorId := authorId p;
     status := status p;
     deleted := deleted p;
     deletedBy := deletedBy p;
     createdAt := createdAt p;
     updatedAt := now |}.

(** [updatePost]: [now] is the value of [new Date()]; the result is the
    first returned row, [None] when no row has the id. *)
Definition updatePost (db : DB) (id : Z) (updates : PostUpdates) (now : Z)
    : DB * option Post :=
  let cond := fun p => Z.eqb (post_id p) id in
  (set_posts db (Sql.update_where cond (apply_updates updates now) (posts db)),
   hd_error (Sql.returning cond (apply_updates updates now) (posts db))).

(** [.set({ deleted: true, deletedBy })]. *)
Definition mark_deleted (by_ : Z) (p : Post) : Post :=
  {| post_id := post_id p; title := title p; content := content p;
     section := section p; authorId := authorId p;
     status := status p;
     deleted := true; deletedBy := Some by_;
     createdAt := createdAt p; updatedAt := updatedAt p |}.

Definition deletePost (db : DB) (id : Z) (deletedBy : Z) : DB :=
  set_posts db
    (Sql.update_where (fun p => Z.eqb (post_id p) id) (mark_deleted deletedBy)
       (posts db)).

(** [.set({ deleted: false, deletedBy: null })]. *)
Definition mark_revived (p : Post) : Post :=
  {| post_id := post_id p; title := title p; content := content p;
     section := section p; authorId := authorId p;
     status := status p;
     deleted := false; deletedBy := None;
     createdAt := createdAt p; updatedAt := updatedAt p |}.

Definition revivePost (db : DB) (id : Z) : DB :=
  set_posts db
    (Sql.update_where (fun p => Z.eqb (post_id p) id) mark_revived (posts db)).

(** The threshold chain of [updateUserBadge], highest first. *)
Definition newBadge (totalCount : Z) : string :=
  if Z.leb 300 totalCount then "legendary-qube"
  else if Z.leb 225 totalCount then "unique-qube"
  else if Z.leb 150 totalCount then "epic-qube"
  else if Z.leb 80 totalCount then "qubed"
  else if Z.leb 35 totalCount then "climber"
  else if Z.leb 10 totalCount then "member"
  else "new-member".

(** [(user.postCount || 0) + (user.messageCount || 0)]. *)
Definition totalCount (postCount messageCount : option Z) : Z :=
  Js.or0 postCount + Js.or0 messageCount.

Definition badge_of (postCount messageCount : option Z) : string :=
  newBadge (totalCount postCount messageCount).

Definition set_badge (b : option string) (u : User) : User :=
  {| user_id := user_id u; username := username u; userId := userId u;
     password := password u; role := role u; avatar := avatar u;
     banner := banner u; postCount := postCount u;
     messageCount := messageCount u; badge := b |}.

Definition option_string_eqb (a b : option string) : bool :=
  match a, b with
  | Some x, Some y => String.eqb x y
  | None, None => true
  | _, _ => false
  end.

Definition updateUserBadge (db : DB) (userId : Z) : DB :=
  match getUser db userId with
  | None => db
  | Some user =>
      let nb := badge_of (postCount user) (messageCount user) in
      if negb (option_string_eqb (Some nb) (badge user))
      then set_users db
             (Sql.update_where (fun u => Z.eqb (user_id u) userId)
                (set_badge (Some nb)) (users db))
      else db
  end.

Definition set_appeals (db : DB) (rows : list Appeal) : DB :=
  {| users := users db; posts := posts db; appeals := rows |}.

(** The argument of [createAppeal]. *)
Record NewAppeal : Type := mkNewAppeal {
  new_userId : Z;
  new_punishmentId : Z;
  new_reason : string
}.

(** Modelled from the spec: the column defaults of the [appeals] table
    ([shared/schema.ts] is missing).  The insert names only [userId],
    [punishmentId] and [reason]; the id is the next serial value, the
    creation time the current time, and the nullable decision column
    [approved] is left null (Pending). *)
Definition appeal_row (rows : list Appeal) (a : NewAppeal) (now : Z) : Appeal :=
  {| appeal_id := Sql.next_id appeal_id rows;
     appeal_userId := new_userId a;
     punishmentId := new_punishmentId a;
     reason := new_reason a;
     approved := None;
     appeal_createdAt := now |}.

Definition createAppeal (db : DB) (a : NewAppeal) (now : Z) : DB * Appeal :=
  let row := appeal_row (appeals db) a now in
  (set_appeals db (appeals db ++ [row]), row).

(** [.where(eq(appeals.approved, null)).orderBy(desc(appeals.createdAt))]. *)
Definition getAppeals (m : Sql.NullComparison) (db : DB) : list Appeal :=
  Sql.orderBy_desc appeal_createdAt
    (filter (fun a => Sql.eq_null m (approved a)) (appeals db)).

End Storage.

(** ** [server/routes.ts]: the route handlers *)

(** What a handler sends: [res.json(x)] is status 200 with the data [x];
    [res.status(c).json({ message })] and [res.json({ message })] carry a
    message. *)
Inductive Body (A : Type) : Type :=
  | Message (m : string)
  | Data (a : A).

Arguments Message {A} m.
Arguments Data {A} a.

Record Response (A : Type) : Type := mkResponse {
  code : Z;
  body : Body A
}.

Arguments mkResponse {A} code body.
Arguments code {A} r.
Arguments body {A} r.

Module Routes.

Definition json {A : Type} (a : A) : Response A := mkResponse 200 (Data a).

Definition say {A : Type} (c : Z) (m : string) : Response A :=
  mkResponse c (Message m).

(** [req.session.userId] when it is truthy. *)
Definition session_user (session : option Z) : option Z :=
  if Js.truthy session then session else None.

(** [GET /api/posts/:section]. *)
Definition GET_api_posts (db : DB) (session : option Z) (sec : string)
    : Response (list PostWithAuthor) :=
  match session_user session with
  | None => say 401 "Not authenticated"
  | Some uid =>
      match Storage.getUser db uid with
      | None => say 401 "User not found"
      | Some user => json (Storage.getPosts db sec (role user) (user_id user))
      end
  end.

(** Modelled from the spec: [updatePostSchema] of the missing
    [shared/schema.ts]; the boundary constraints are title of at most 200
    characters and body of at most 10000 characters.  [None] is the
    validation error that [parse] throws. *)
Definition updatePostSchema_parse (reqBody : Storage.PostUpdates)
    : option Storage.PostUpdates :=
  let fits (limit : Z) (field : option string) :=
    match field with
    | Some s => Z.leb (Z.of_nat (String.length s)) limit
    | None => true
    end in
  if fits 200 (Storage.upd_title reqBody)
     && fits 10000 (Storage.upd_content reqBody)
  then Some reqBody else None.

(** [Object.keys(validatedData).length === 0]. *)
Definition no_fields (u : Storage.PostUpdates) : bool :=
  match Storage.upd_title u, Storage.upd_content u with
  | None, None => true
  | _, _ => false
  end.

(** [PATCH /api/posts/:id]; [now] is the clock read by [updatePost]. *)
Definition PATCH_api_posts (db : DB) (session : option Z) (postId : Z)
    (reqBody : Storage.PostUpdates) (now : Z) : DB * Response (option Post) :=
  match session_user session with
  | None => (db, say 401 "Not authenticated")
  | Some uid =>
      match Storage.getPost db postId with
      | None => (db, say 404 "Post not found")
      | Some post =>
          if negb (Z.eqb (authorId post) uid)
          then (db, say 403 "You can only edit your own posts")
          else
            match updatePostSchema_parse reqBody with
            | None => (db, say 400 "Failed to update post")
            | Some validatedData =>
                if no_fields validatedData
                then (db, say 400 "No fields to update")
                else
                  let (db', updatedPost) :=
                    Storage.updatePost db postId validatedData now in
                  (db', json updatedPost)
            end
      end
  end.

(** [DELETE /api/posts/:id]. *)
Definition DELETE_api_posts (db : DB) (session : option Z) (postId : Z)
    : DB * Response unit :=
  match session_user session with
  | None => (db, say 401 "Not authenticated")
  | Some uid =>
      match Storage.getUser db uid with
      | None => (db, say 401 "User not found")
      | Some user =>
          if Js.lt (ROLE_HIERARCHY (role user)) (ROLE_HIERARCHY "moderator")
          then (db, say 403 "Insufficient permissions")
          else
            match Storage.getPost db postId with
            | None => (db, say 404 "Post not found")
            | Some _ =>
                (Storage.deletePost db postId uid,
                 say 200 "Post deleted successfully")
            end
      end
  end.

(** [POST /api/posts/:id/revive]. *)
Definition POST_api_posts_revive (db : DB) (session : option Z) (postId : Z)
    : DB * Response unit :=
  match session_user session with
  | None => (db, say 401 "Not authenticated")
  | Some uid =>
      match Storage.getUser db uid with
      | None => (db, say 401 "User not found")
      | Some user =>
          if Js.lt (ROLE_HIERARCHY (role user)) (ROLE_HIERARCHY "admin")
          then (db, say 403 "Insufficient permissions")
          else
            match Storage.getPost db postId with
            | None => (db, say 404 "Post not found")
            | Some _ =>
                (Storage.revivePost db postId,
                 say 200 "Post revived successfully")
            end
      end
  end.

(** [user?.role !== 'owner' && user?.role !== 'admin' &&
    user?.role !== 'moderator']: the guard of the appeal and punishment
    routes. *)
Definition not_appeal_staff (user : option User) : bool :=
  match user with
  | None => true
  | Some u =>
      negb (String.eqb (role u) "owner")
      && negb (String.eqb (role u) "admin")
      && negb (String.eqb (role u) "moderator")
  end.

(** [GET /api/appeals]. *)
Definition GET_api_appeals (m : Sql.NullComparison) (db : DB)
    (session : option Z) : Response (list Appeal) :=
  match session_user session with
  | None => say 401 "Not authenticated"
  | Some uid =>
      if not_appeal_staff (Storage.getUser db uid)
      then say 403 "Not authorized"
      else json (Storage.getAppeals m db)
  end.

(** [POST /api/appeals].  [data] is the result of
    [insertAppealSchema.parse(req.body)], [None] when it throws (the schema
    is in the missing [shared/schema.ts]); the handler overrides [userId]
    with the session's user. *)
Definition POST_api_appeals (db : DB) (session : option Z)
    (data : option Storage.NewAppeal) (now : Z) : DB * Response Appeal :=
  match session_user session with
  | None => (db, say 401 "Not authenticated")
  | Some uid =>
      match data with
      | None => (db, say 400 "Failed to create appeal")
      | Some d =>
          let (db', appeal) :=
            Storage.createAppeal db
              (Storage.mkNewAppeal uid (Storage.new_punishmentId d)
                 (Storage.new_reason d)) now in
          (db', json appeal)
      end
  end.

(** [POST /api/appeals/:id/approve].  After the guards the handler body is
    the comment [// Update appeal approval status] and the reply; it makes
    no storage call. *)
Definition POST_api_appeals_approve (db : DB) (session : option Z)
    (appealId : Z) : DB * Response unit :=
  match session_user session with
  | None => (db, say 401 "Not authenticated")
  | Some uid =>
      if not_appeal_staff (Storage.getUser db uid)
      then (db, say 403 "Not authorized")
      else (db, say 200 "Appeal approved")
  end.

(** [POST /api/appeals/:id/reject].  As above, with the comment
    [// Update appeal rejection status]. *)
Definition POST_api_appeals_reject (db : DB) (session : option Z)
    (appealId : Z) : DB * Response unit :=
  match session_user session with
  | None => (db, say 401 "Not authenticated")
  | Some uid =>
      if not_appeal_staff (Storage.getUser db uid)
      then (db, say 403 "Not authorized")
      else (db, say 200 "Appeal rejected")
  end.

End Routes.

(** ** [client/src/pages/section.tsx]: the section page *)

Module Page.

(** The page's local [canViewAllInSection]; unlike [canViewAllReports] it
    answers [true] for the other sections. *)
Definition canViewAllInSection (sec userRole : string) : bool :=
  if String.eqb sec "player-reports"
  then Js.ge (ROLE_HIERARCHY userRole) (ROLE_HIERARCHY "moderator")
  else if String.eqb sec "bug-reports"
  then String.eqb userRole "developer" || String.eqb userRole "owner"
  else if String.eqb sec "support-tickets"
  then Js.ge (ROLE_HIERARCHY userRole) (ROLE_HIERARCHY "helper")
  else true.

(** First filter of [visiblePosts]: a deleted post stays only for a viewer
    who may revive it. *)
Definition keep_deleted (user : User) (post : PostWithAuthor) : bool :=
  if negb (deleted (pwa_post post)) then true
  else canRevivePost (role user).

(** Second filter: in the three report sections a viewer without full
    view keeps only own posts. *)
Definition keep_reports (user : User) (sec : string) (post : PostWithAuthor)
    : bool :=
  if String.eqb sec "player-reports" || String.eqb sec "bug-reports"
     || String.eqb sec "support-tickets"
  then
    if canViewAllInSection sec (role user) then true
    else Z.eqb (authorId (pwa_post post)) (user_id user)
  else true.

(** Third filter: case-insensitive substring search in title and content. *)
Definition keep_search (searchQuery : string) (post : PostWithAuthor) : bool :=
  if negb (Js.nonempty searchQuery) then true
  else
    let query := Js.toLowerCase searchQuery in
    Js.includes (Js.toLowerCase (title (pwa_post post))) query
    || Js.includes (Js.toLowerCase (content (pwa_post post))) query.

Definition visiblePosts (user : User) (sec searchQuery : string)
    (posts : list PostWithAuthor) : list PostWithAuthor :=
  filter (keep_search searchQuery)
    (filter (keep_reports user sec)
       (filter (keep_deleted user) posts)).

(** What the page renders for a signed-in user once the posts have loaded:
    the access-denied card, or the list of visible posts. *)
Inductive View : Type :=
  | AccessDenied
  | PostList (items : list PostWithAuthor).

Definition SectionPage (user : User) (sec searchQuery : string)
    (posts : list PostWithAuthor) : View :=
  if negb (canAccessSection (role user) sec) then AccessDenied
  else PostList (visiblePosts user sec searchQuery posts).

End Page.

(** ** The read path end to end

    The route resolves the session to the viewer and answers with
    [getPosts(section, user.role, user.id)]; the section page renders that
    answer for the same viewer. *)
Definition listContent (db : DB) (viewer : User) (sec searchQuery : string)
    : Page.View :=
  Page.SectionPage viewer sec searchQuery
    (Storage.getPosts db sec (role viewer) (user_id viewer)).

(** The decision state of an appeal, read off the nullable column as the
    appeals page does. *)
Inductive Decision : Type := Pending | Approved | Rejected.

Definition decision (a : Appeal) : Decision :=
  match approved a with
  | None => Pending
  | Some true => Approved
  | Some false => Rejected
  end.

(** Newest first: the order relation of [ORDER BY created_at DESC]. *)
Definition newest_first (a b : Post) : Prop := createdAt b <= createdAt a.

(** The order the specification asks of a listing: newest first, and among
    posts created at the same time the larger id first. *)
Definition newest_then_id_desc (a b : Post) : Prop :=
  createdAt b < createdAt a
  \/ (createdAt b = createdAt a /\ post_id b < post_id a).

(** ** Sample data *)

Module Sample.

Definition member (id : Z) (name role_ : string) : User :=
  {| user_id := id; username := name; userId := "1000000000000000000";
     password := "$2b$10$hash"; role := role_; avatar := None;
     banner := None; postCount := Some 0; messageCount := Some 0;
     badge := Some "new-member" |}.

Definition alice : User := member 1 "alice" "user".
Definition hana : User := member 2 "hana" "helper".
Definition mira : User := member 3 "mira" "moderator".
Definition adam : User := member 4 "adam" "admin".
Definition dana : User := member 5 "dana" "developer".
Definition omar : User := member 6 "omar" "owner".
Definition milo : User := member 7 "milo" "moderator".

Definition everyone : list User := [alice; hana; mira; adam; dana; omar; milo].

Definition post (id : Z) (sec : string) (author : Z) (t : string)
    (del : option Z) (created : Z) : Post :=
  {| post_id := id; title := t; content := "text"; section := sec;
     authorId := author; status := None;
     deleted := match del with Some _ => true | None => false end;
     deletedBy := del; createdAt := created; updatedAt := created |}.

(** A forum with a live and a deleted post in [general], three bug reports
    by three authors (one of them deleted), and a dev-panel note. *)
Definition forum : DB :=
  {| users := everyone;
     posts :=
       [ post 1 "general" 1 "Hello" None 100;
         post 2 "general" 2 "Spam" (Some 3) 200;
         post 3 "bug-reports" 2 "Crash on login" None 300;
         post 4 "bug-reports" 1 "Typo" None 310;
         post 5 "bug-reports" 3 "Duplicate" (Some 3) 320;
         post 6 "dev-panel" 5 "Deploy keys" None 400 ];
     appeals :=
       [ mkAppeal 1 1 11 "I was framed" None 500;
         mkAppeal 2 2 12 "Too harsh" (Some true) 510;
         mkAppeal 3 1 13 "Please" None 520;
         mkAppeal 4 2 14 "Again" (Some false) 530 ] |}.

(** Two posts of one section created at the same instant. *)
Definition twins : DB :=
  {| users := everyone;
     posts :=
       [ post 1 "general" 1 "First" None 100;
         post 2 "general" 2 "Second" None 100 ];
     appeals := [] |}.

(** The same two rows, stored in the other order. *)
Definition twins_swapped : DB :=
  {| users := everyone;
     posts :=
       [ post 2 "general" 2 "Second" None 100;
         post 1 "general" 1 "First" None 100 ];
     appeals := [] |}.

End Sample.

(** ** Accounts: users in the storage layer and the account routes

    In what follows an insert, update or delete is what the storage method
    writes: constraints that the missing [shared/schema.ts] may declare on
    the tables (foreign keys, unique indexes, cascades) are not modelled. *)

Module Accounts.

Definition getUserByUsername (db : DB) (name : string) : option User :=
  find (fun u => String.eqb (username u) name) (users db).

Definition getUserByUserId (db : DB) (uid : string) : option User :=
  find (fun u => String.eqb (userId u) uid) (users db).

(** Modelled from the spec: the column defaults of the [users] table
    ([shared/schema.ts] is missing).  [createUser] is always called with
    username, password, userId and role; the id is the next serial value,
    the pictures are null and the reputation counters start at zero with
    no badge. *)
Definition user_row (rows : list User) (name pass uid role_ : string) : User :=
  {| user_id := Sql.next_id user_id rows;
     username := name; userId := uid; password := pass; role := role_;
     avatar := None; banner := None;
     postCount := Some 0; messageCount := Some 0; badge := None |}.

Definition createUser (db : DB) (name pass uid role_ : string) : DB * User :=
  let row := user_row (users db) name pass uid role_ in
  (Storage.set_users db (users db ++ [row]), row).

(** [Partial<{ avatar: string | null; banner: string | null }>]: a field
    that is absent is [None], a field set to null is [Some None]. *)
Record ProfileUpdates : Type := mkProfileUpdates {
  upd_avatar : option (option string);
  upd_banner : option (option string)
}.

Definition apply_profile (updates : ProfileUpdates) (u : User) : User :=
  {| user_id := user_id u; username := username u; userId := userId u;
     password := password u; role := role u;
     avatar := match upd_avatar updates with Some a => a | None => avatar u end;
     banner := match upd_banner updates with Some b => b | None => banner u end;
     postCount := postCount u; messageCount := messageCount u;
     badge := badge u |}.

(** [updateUser]: the first returned row, [None] when no row has the id. *)
Definition updateUser (db : DB) (id : Z) (updates : ProfileUpdates)
    : DB * option User :=
  let cond := fun u => Z.eqb (user_id u) id in
  (Storage.set_users db
     (Sql.update_where cond (apply_profile updates) (users db)),
   hd_error (Sql.returning cond (apply_profile updates) (users db))).

(** The body of the signup and login replies:
    [{ id, username, userId, role }]. *)
Record Identity : Type := mkIdentity {
  identity_id : Z;
  identity_username : string;
  identity_userId : string;
  identity_role : string
}.

Definition identity_of (u : User) : Identity :=
  {| identity_id := user_id u; identity_username := username u;
     identity_userId := userId u; identity_role := role u |}.

(** [const { password, ...userWithoutPassword } = user]. *)
Record UserWithoutPassword : Type := mkUserWithoutPassword {
  pub_id : Z;
  pub_username : string;
  pub_userId : string;
  pub_role : string;
  pub_avatar : option string;
  pub_banner : option string;
  pub_postCount : option Z;
  pub_messageCount : option Z;
  pub_badge : option string
}.

Definition without_password (u : User) : UserWithoutPassword :=
  {| pub_id := user_id u; pub_username := username u;
     pub_userId := userId u; pub_role := role u; pub_avatar := avatar u;
     pub_banner := banner u; pub_postCount := postCount u;
     pub_messageCount := messageCount u; pub_badge := badge u |}.

(** The validated body of a signup. *)
Record Credentials : Type := mkCredentials {
  cred_username : string;
  cred_password : string
}.

(** Truthiness of an optional string field of a request body. *)
Definition given (field : option string) : bool :=
  match field with
  | Some s => Js.nonempty s
  | None => false
  end.

(** [POST /api/signup].  The handler's calls out of the repository are
    inputs: [validatedData] is the result of [insertUserSchema.parse]
    ([None] when it throws), [isInGuild] the answer of [verifyUserInGuild]
    for the given [discordUserId], [hashedPassword] the result of
    [bcrypt.hash] and [newUserId] that of [generateUserId].  The second
    component is [req.session.userId] after the request. *)
Definition POST_api_signup (db : DB) (session : option Z)
    (validatedData : option Credentials) (discordUserId : option string)
    (isInGuild : bool) (hashedPassword newUserId : string)
    : DB * option Z * Response Identity :=
  match validatedData with
  | None => (db, session, Routes.say 400 "Signup failed")
  | Some data =>
      match getUserByUsername db (cred_username data) with
      | Some _ => (db, session, Routes.say 400 "Username already taken")
      | None =>
          if given discordUserId && negb isInGuild
          then (db, session,
                Routes.say 400
                  ("Discord user not found in any bot servers. "
                   ++ "Please join the support server: "
                   ++ "discord.gg/j7Ap4xUkG7"))
          else
            let (db', user) :=
              createUser db (cred_username data) hashedPassword newUserId
                "user" in
            (db', Some (user_id user), Routes.json (identity_of user))
      end
  end.

(** [POST /api/login]; [compare] is [bcrypt.compare]. *)
Definition POST_api_login (compare : string -> string -> bool) (db : DB)
    (session : option Z) (name pass : string)
    : option Z * Response Identity :=
  match getUserByUsername db name with
  | None => (session, Routes.say 401 "Invalid credentials")
  | Some user =>
      if negb (compare pass (password user))
      then (session, Routes.say 401 "Invalid credentials")
      else (Some (user_id user), Routes.json (identity_of user))
  end.

(** [GET /api/user]. *)
Definition GET_api_user (db : DB) (session : option Z)
    : Response UserWithoutPassword :=
  match Routes.session_user session with
  | None => Routes.say 401 "Not authenticated"
  | Some uid =>
      match Storage.getUser db uid with
      | None => Routes.say 404 "User not found"
      | Some user => Routes.json (without_password user)
      end
  end.

(** [POST /api/user/avatar].  [avatar] is the body's field when it is a
    string.  When no row has the session's id, [updateUser] returns
    [undefined], the destructuring throws and the [catch] answers 500 with
    the engine's message. *)
Definition POST_api_user_avatar (db : DB) (session : option Z)
    (avatar : option string) : DB * Response UserWithoutPassword :=
  match Routes.session_user session with
  | None => (db, Routes.say 401 "Not authenticated")
  | Some uid =>
      match avatar with
      | Some a =>
          if negb (Js.nonempty a)
          then (db, Routes.say 400 "Invalid avatar data")
          else
            let (db', user) :=
              updateUser db uid (mkProfileUpdates (Some (Some a)) None) in
            match user with
            | None => (db', Routes.say 500 "Failed to update avatar")
            | Some u => (db', Routes.json (without_password u))
            end
      | None => (db, Routes.say 400 "Invalid avatar data")
      end
  end.

(** [POST /api/user/banner]. *)
Definition POST_api_user_banner (db : DB) (session : option Z)
    (banner : option string) : DB * Response UserWithoutPassword :=
  match Routes.session_user session with
  | None => (db, Routes.say 401 "Not authenticated")
  | Some uid =>
      match banner with
      | Some b =>
          if negb (Js.nonempty b)
          then (db, Routes.say 400 "Invalid banner data")
          else
            let (db', user) :=
              updateUser db uid (mkProfileUpdates None (Some (Some b))) in
            match user with
            | None => (db', Routes.say 500 "Failed to update banner")
            | Some u => (db', Routes.json (without_password u))
            end
      | None => (db, Routes.say 400 "Invalid banner data")
      end
  end.

End Accounts.

(** ** Posting: creating posts, the profile listing, report status, counters *)

Module Posting.

(** [InsertPost] with the author the route adds. *)
Record NewPost : Type := mkNewPost {
  new_title : string;
  new_content : string;
  new_section : string;
  new_authorId : Z
}.

(** Modelled from the spec: the column defaults of the [posts] table
    ([shared/schema.ts] is missing).  The insert names title, content,
    section and author; the id is the next serial value, the post is not
    deleted, and both timestamps are the current time.  The default of the
    [status] column is the argument [defaultStatus]. *)
Definition post_row (rows : list Post) (p : NewPost)
    (defaultStatus : option string) (now : Z) : Post :=
  {| post_id := Sql.next_id post_id rows;
     title := new_title p; content := new_content p;
     section := new_section p; authorId := new_authorId p;
     status := defaultStatus; deleted := false; deletedBy := None;
     createdAt := now; updatedAt := now |}.

Definition createPost (db : DB) (p : NewPost) (defaultStatus : option string)
    (now : Z) : DB * Post :=
  let row := post_row (posts db) p defaultStatus now in
  (Storage.set_posts db (posts db ++ [row]), row).

(** [POST /api/posts].  [validatedData] is the result of
    [insertPostSchema.parse(req.body)], [None] when it throws; whatever
    author the body names, the handler puts the session's user. *)
Definition POST_api_posts (db : DB) (session : option Z)
    (validatedData : option NewPost) (defaultStatus : option string)
    (now : Z) : DB * Response Post :=
  match Routes.session_user session with
  | None => (db, Routes.say 401 "Not authenticated")
  | Some uid =>
      match validatedData with
      | None => (db, Routes.say 400 "Failed to create post")
      | Some d =>
          let (db', post) :=
            createPost db
              (mkNewPost (new_title d) (new_content d) (new_section d) uid)
              defaultStatus now in
          (db', Routes.json post)
      end
  end.

Definition getUserPosts (db : DB) (userId : Z) : list PostWithAuthor :=
  map (Storage.join_author db)
    (Sql.orderBy_desc createdAt
       (filter (fun p => Z.eqb (authorId p) userId) (posts db))).

(** [GET /api/user/posts]. *)
Definition GET_api_user_posts (db : DB) (session : option Z)
    : Response (list PostWithAuthor) :=
  match Routes.session_user session with
  | None => Routes.say 401 "Not authenticated"
  | Some uid => Routes.json (getUserPosts db uid)
  end.

(** [.set({ status })]. *)
Definition set_status (s : string) (p : Post) : Post :=
  {| post_id := post_id p; title := title p; content := content p;
     section := section p; authorId := authorId p;
     status := Some s;
     deleted := deleted p; deletedBy := deletedBy p;
     createdAt := createdAt p; updatedAt := updatedAt p |}.

Definition updatePostStatus (db : DB) (id : Z) (s : string) : DB :=
  Storage.set_posts db
    (Sql.update_where (fun p => Z.eqb (post_id p) id) (set_status s)
       (posts db)).

(** [POST /api/posts/:id/status]; [status] is the body's field. *)
Definition POST_api_posts_status (db : DB) (session : option Z) (postId : Z)
    (status : option string) : DB * Response unit :=
  match Routes.session_user session with
  | None => (db, Routes.say 401 "Not authenticated")
  | Some uid =>
      match Storage.getUser db uid with
      | None => (db, Routes.say 401 "User not found")
      | Some user =>
          if negb (String.eqb (role user) "developer")
             && negb (String.eqb (role user) "owner")
          then (db, Routes.say 403
                      "Only developers can update bug report status")
          else
            match status with
            | Some s =>
                if negb (Js.nonempty s)
                then (db, Routes.say 400 "Status is required")
                else (updatePostStatus db postId s,
                      Routes.say 200 "Post status updated successfully")
            | None => (db, Routes.say 400 "Status is required")
            end
      end
  end.

(** [getCounters] and [GET /api/counters]: the numbers of rows of the two
    tables. *)
Record Counters : Type := mkCounters {
  totalMembers : Z;
  totalPosts : Z
}.

Definition getCounters (db : DB) : Counters :=
  {| totalMembers := Z.of_nat (List.length (users db));
     totalPosts := Z.of_nat (List.length (posts db)) |}.

Definition GET_api_counters (db : DB) : Response Counters :=
  Routes.json (getCounters db).


End Posting.

(** ** Messages, punishments and announcements *)

(** Modelled from the spec: the row types ([Message] is [DirectMessage]
    here) of the [messages], [punishments]
    and [announcements] tables ([shared/schema.ts] is missing); the fields
    are those that the storage layer writes and the pages read. *)
Record DirectMessage : Type := mkDirectMessage {
  message_id : Z;
  senderId : Z;
  recipientId : Z;
  message_content : string;
  message_createdAt : Z
}.

Record Punishment : Type := mkPunishment {
  punishment_id : Z;
  punished_userId : Z;
  punishment_reason : string;
  warningPoints : Z;
  issuedBy : Z
}.

Record Announcement : Type := mkAnnouncement {
  announcement_id : Z;
  announcement_authorId : Z;
  announcement_title : string;
  announcement_content : string;
  pinnedUntil : option Z;
  announcement_createdAt : Z
}.

(** The database with the three further tables. *)
Record Store : Type := mkStore {
  core : DB;
  messages : list DirectMessage;
  punishments : list Punishment;
  announcements : list Announcement
}.

Module Messaging.

Record MessageWithUsers : Type := mkMessageWithUsers {
  mwu_message : DirectMessage;
  sender : option User;
  recipient : option User
}.

(** Messages addressed to [userId], each with its sender row and with the
    addressee's own row. *)
Definition getMessages (st : Store) (userId : Z) : list MessageWithUsers :=
  let currentUser := Storage.getUser (core st) userId in
  map (fun m =>
         {| mwu_message := m;
            sender := Storage.getUser (core st) (senderId m);
            recipient := currentUser |})
    (Sql.orderBy_desc message_createdAt
       (filter (fun m => Z.eqb (recipientId m) userId) (messages st))).

Definition set_messages (st : Store) (rows : list DirectMessage) : Store :=
  {| core := core st; messages := rows; punishments := punishments st;
     announcements := announcements st |}.

(** Modelled from the spec: column defaults of the [messages] table; the
    insert names sender, recipient and content, the id is the next serial
    value and the creation time the current time. *)
Definition message_row (rows : list DirectMessage) (from to : Z) (text : string)
    (now : Z) : DirectMessage :=
  {| message_id := Sql.next_id message_id rows;
     senderId := from; recipientId := to; message_content := text;
     message_createdAt := now |}.

Definition createMessage (st : Store) (from to : Z) (text : string) (now : Z)
    : Store * DirectMessage :=
  let row := message_row (messages st) from to text now in
  (set_messages st (messages st ++ [row]), row).

(** What the route sends for a message: the user rows without password. *)
Record MessageView : Type := mkMessageView {
  view_message : DirectMessage;
  view_sender : option Accounts.UserWithoutPassword;
  view_recipient : option Accounts.UserWithoutPassword
}.

Definition view_of (m : MessageWithUsers) : MessageView :=
  {| view_message := mwu_message m;
     view_sender := option_map Accounts.without_password (sender m);
     view_recipient := option_map Accounts.without_password (recipient m) |}.

(** [GET /api/messages]. *)
Definition GET_api_messages (st : Store) (session : option Z)
    : Response (list MessageView) :=
  match Routes.session_user session with
  | None => Routes.say 401 "Not authenticated"
  | Some uid => Routes.json (map view_of (getMessages st uid))
  end.

(** [POST /api/messages]; the two body fields are given when they are
    strings. *)
Definition POST_api_messages (st : Store) (session : option Z)
    (recipientUsername content : option string) (now : Z)
    : Store * Response DirectMessage :=
  match Routes.session_user session with
  | None => (st, Routes.say 401 "Not authenticated")
  | Some uid =>
      match recipientUsername, content with
      | Some name, Some text =>
          if negb (Js.nonempty name) || negb (Js.nonempty text)
          then (st, Routes.say 400 "Recipient and content are required")
          else if Z.eqb (Z.of_nat (String.length text)) 0
                  || Z.ltb 2000 (Z.of_nat (String.length text))
          then (st, Routes.say 400
                      "Content must be between 1 and 2000 characters")
          else
            match Accounts.getUserByUsername (core st) name with
            | None => (st, Routes.say 404 "Recipient not found")
            | Some to =>
                if Z.eqb (user_id to) uid
                then (st, Routes.say 400 "Cannot send message to yourself")
                else
                  let (st', message) :=
                    createMessage st uid (user_id to) text now in
                  (st', Routes.json message)
            end
      | _, _ => (st, Routes.say 400 "Recipient and content are required")
      end
  end.

End Messaging.

Module Moderation.

Definition set_punishments (st : Store) (rows : list Punishment) : Store :=
  {| core := core st; messages := messages st; punishments := rows;
     announcements := announcements st |}.

Definition set_announcements (st : Store) (rows : list Announcement) : Store :=
  {| core := core st; messages := messages st;
     punishments := punishments st; announcements := rows |}.

(** The argument of [createPunishment]. *)
Record NewPunishment : Type := mkNewPunishment {
  np_userId : Z;
  np_reason : string;
  np_warningPoints : Z;
  np_issuedBy : Z
}.

Definition createPunishment (st : Store) (p : NewPunishment)
    : Store * Punishment :=
  let row :=
    {| punishment_id := Sql.next_id punishment_id (punishments st);
       punished_userId := np_userId p; punishment_reason := np_reason p;
       warningPoints := np_warningPoints p; issuedBy := np_issuedBy p |} in
  (set_punishments st (punishments st ++ [row]), row).

Definition getUserPunishments (st : Store) (userId : Z) : list Punishment :=
  filter (fun p => Z.eqb (punished_userId p) userId) (punishments st).

(** [db.delete(punishments).where(eq(punishments.id, id))]. *)
Definition revokePunishment (st : Store) (id : Z) : Store :=
  set_punishments st
    (filter (fun p => negb (Z.eqb (punishment_id p) id)) (punishments st)).

(** [DELETE /api/punishments/:id]. *)
Definition DELETE_api_punishments (st : Store) (session : option Z) (id : Z)
    : Store * Response unit :=
  match Routes.session_user session with
  | None => (st, Routes.say 401 "Not authenticated")
  | Some uid =>
      if Routes.not_appeal_staff (Storage.getUser (core st) uid)
      then (st, Routes.say 403 "Not authorized")
      else (revokePunishment st id, Routes.say 200 "Punishment revoked")
  end.

(** The argument of [createAnnouncement]. *)
Record NewAnnouncement : Type := mkNewAnnouncement {
  na_authorId : Z;
  na_title : string;
  na_content : string;
  na_pinnedUntil : option Z
}.

Definition createAnnouncement (st : Store) (a : NewAnnouncement) (now : Z)
    : Store * Announcement :=
  let row :=
    {| announcement_id := Sql.next_id announcement_id (announcements st);
       announcement_authorId := na_authorId a;
       announcement_title := na_title a;
       announcement_content := na_content a;
       pinnedUntil := na_pinnedUntil a;
       announcement_createdAt := now |} in
  (set_announcements st (announcements st ++ [row]), row).

(** [.orderBy(desc(announcements.createdAt)).limit(10)]. *)
Definition getAnnouncements (st : Store) : list Announcement :=
  firstn 10 (Sql.orderBy_desc announcement_createdAt (announcements st)).

Definition deleteAnnouncement (st : Store) (id : Z) : Store :=
  set_announcements st
    (filter (fun a => negb (Z.eqb (announcement_id a) id))
       (announcements st)).

(** [user?.role !== 'owner' && user?.role !== 'developer']. *)
Definition not_announcer (user : option User) : bool :=
  match user with
  | None => true
  | Some u =>
      negb (String.eqb (role u) "owner")
      && negb (String.eqb (role u) "developer")
  end.

(** [POST /api/announcements]; [data] is the result of
    [insertAnnouncementSchema.parse(req.body)], [None] when it throws. *)
Definition POST_api_announcements (st : Store) (session : option Z)
    (data : option NewAnnouncement) (now : Z)
    : Store * Response Announcement :=
  match Routes.session_user session with
  | None => (st, Routes.say 401 "Not authenticated")
  | Some uid =>
      if not_announcer (Storage.getUser (core st) uid)
      then (st, Routes.say 403
                  "Only owners and developers can create announcements")
      else
        match data with
        | None => (st, Routes.say 400 "Failed to create announcement")
        | Some d =>
            let (st', announcement) :=
              createAnnouncement st
                (mkNewAnnouncement uid (na_title d) (na_content d)
                   (na_pinnedUntil d)) now in
            (st', Routes.json announcement)
        end
  end.

(** [GET /api/announcements]: no session is asked for. *)
Definition GET_api_announcements (st : Store) : Response (list Announcement) :=
  Routes.json (getAnnouncements st).

(** [DELETE /api/announcements/:id]. *)
Definition DELETE_api_announcements (st : Store) (session : option Z)
    (id : Z) : Store * Response unit :=
  match Routes.session_user session with
  | None => (st, Routes.say 401 "Not authenticated")
  | Some uid =>
      if not_announcer (Storage.getUser (core st) uid)
      then (st, Routes.say 403 "Not authorized")
      else (deleteAnnouncement st id, Routes.say 200 "Announcement deleted")
  end.

End Moderation.

(** ** The home page and the sidebar *)

Module Home.

Record SectionInfo : Type := mkSectionInfo {
  key : string;
  name : string;
  restricted : bool
}.

Definition SECTIONS : list SectionInfo :=
  [ mkSectionInfo "general" "General Discussion" false;
    mkSectionInfo "off-topic" "Off-Topic" false;
    mkSectionInfo "code-share" "Code Share" false;
    mkSectionInfo "support" "Support" false;
    mkSectionInfo "bot" "Bot Discussion" false;
    mkSectionInfo "website" "Website Feedback" false;
    mkSectionInfo "player-reports" "Player Reports" true;
    mkSectionInfo "bug-reports" "Bug Reports" true;
    mkSectionInfo "support-tickets" "Support Tickets" true;
    mkSectionInfo "dev-panel" "Developer Panel" true ].

(** The sections the home page offers to a signed-in user. *)
Definition accessibleSections (user : User) : list SectionInfo :=
  filter (fun s => canAccessSection (role user) (key s)) SECTIONS.

Definition DEV_SECTIONS : list string := ["dev-panel"].

(** The sidebar's developer group. *)
Definition accessibleDevSections (user : User) : list string :=
  filter (fun s => canAccessSection (role user) s) DEV_SECTIONS.

End Home.

(** ** More sample data *)

Module Scenario.

Definition store : Store :=
  {| core := Sample.forum;
     messages :=
       [ mkDirectMessage 1 1 2 "Hi Hana" 600;
         mkDirectMessage 2 2 1 "Hi Alice" 610;
         mkDirectMessage 3 3 1 "Please read the rules" 620 ];
     punishments :=
       [ mkPunishment 11 1 "Spam" 2 3;
         mkPunishment 12 2 "Flaming" 1 3;
         mkPunishment 13 1 "Spam again" 3 7 ];
     announcements :=
       map (fun n => mkAnnouncement n 6 "News" "text" None (1000 + n))
         [1; 2; 3; 4; 5; 6; 7; 8; 9; 10; 11; 12] |}.

(** A visitor whose stored role is none of the six names. *)
Definition gus : User := Sample.member 8 "gus" "guest".

Definition forum_with_guest : DB :=
  {| users := Sample.everyone ++ [gus];
     posts := posts Sample.forum ++
              [ Sample.post 7 "player-reports" 1 "Cheater" None 700;
                Sample.post 8 "player-reports" 2 "Griefer" None 710 ];
     appeals := appeals Sample.forum |}.

End Scenario.

(** * Properties *)

(** ** The rank table *)

Lemma ROLE_HIERARCHY_rank (r : Role) :
  ROLE_HIERARCHY (role_name r) = Some (rank r).
Proof. destruct r; reflexivity. Qed.

Lemma rank_values :
  map rank all_roles = [0; 1; 2; 3; 3; 4].
Proof. reflexivity. Qed.

Lemma lt_rank (r t : Role) :
  Js.lt (ROLE_HIERARCHY (role_name r)) (ROLE_HIERARCHY (role_name t))
  = Z.ltb (rank r) (rank t).
Proof. now rewrite !ROLE_HIERARCHY_rank. Qed.

Lemma ge_rank (r t : Role) :
  Js.ge (ROLE_HIERARCHY (role_name r)) (ROLE_HIERARCHY (role_name t))
  = Z.leb (rank t) (rank r).
Proof. now rewrite !ROLE_HIERARCHY_rank. Qed.

Lemma canRevivePost_rank (r : Role) :
  canRevivePost (role_name r) = Z.leb (rank R_admin) (rank r).
Proof. exact (ge_rank r R_admin). Qed.

Lemma canDeletePost_rank (r : Role) :
  canDeletePost (role_name r) = Z.leb (rank R_moderator) (rank r).
Proof. exact (ge_rank r R_moderator). Qed.

(** ** [ORDER BY ... DESC] *)

Section OrderBy.

Context {A : Type} (key : A -> Z).

Lemma insert_desc_perm (x : A) (l : list A) :
  Permutation (x :: l) (Sql.insert_desc key x l).
Proof.
  induction l as [| y rest IH]; simpl.
  - reflexivity.
  - destruct (Z.leb (key y) (key x)).
    + reflexivity.
    + rewrite perm_swap. now apply perm_skip.
Qed.

Lemma orderBy_desc_perm (l : list A) :
  Permutation l (Sql.orderBy_desc key l).
Proof.
  induction l as [| x rest IH]; simpl.
  - reflexivity.
  - rewrite <- insert_desc_perm. now apply perm_skip.
Qed.

Lemma In_orderBy_desc (x : A) (l : list A) :
  In x (Sql.orderBy_desc key l) <-> In x l.
Proof.
  split; apply Permutation_in;
    [symmetry |]; apply orderBy_desc_perm.
Qed.

Lemma insert_desc_sorted (x : A) (l : list A) :
  StronglySorted (Sql.descending key) l ->
  StronglySorted (Sql.descending key) (Sql.insert_desc key x l).
Proof.
  induction 1 as [| y rest Hrest IH Hy]; simpl.
  - repeat constructor.
  - destruct (Z.leb (key y) (key x)) eqn:E.
    + apply Z.leb_le in E.
      constructor; [now constructor |].
      constructor; [exact E |].
      unfold Sql.descending in *.
      eapply Forall_impl; [| exact Hy].
      simpl; intros; lia.
    + apply Z.leb_gt in E.
      constructor; [exact IH |].
      apply (Permutation_Forall (insert_desc_perm x rest)).
      constructor; [unfold Sql.descending; lia | exact Hy].
Qed.

Lemma orderBy_desc_sorted (l : list A) :
  StronglySorted (Sql.descending key) (Sql.orderBy_desc key l).
Proof.
  induction l as [| x rest IH]; simpl.
  - constructor.
  - now apply insert_desc_sorted.
Qed.

End OrderBy.

Lemma StronglySorted_filter {A : Type} (R : A -> A -> Prop) (f : A -> bool)
    (l : list A) :
  StronglySorted R l -> StronglySorted R (filter f l).
Proof.
  induction 1 as [| x rest Hrest IH Hx]; simpl.
  - constructor.
  - destruct (f x); [| exact IH].
    constructor; [exact IH |].
    rewrite Forall_forall in *. intros y Hy.
    apply filter_In in Hy. now apply Hx.
Qed.

Lemma StronglySorted_map {A B : Type} (R : B -> B -> Prop) (f : A -> B)
    (l : list A) :
  StronglySorted (fun a b => R (f a) (f b)) l -> StronglySorted R (map f l).
Proof.
  induction 1 as [| x rest Hrest IH Hx]; simpl.
  - constructor.
  - constructor; [exact IH |].
    rewrite Forall_forall in *. intros y Hy.
    apply in_map_iff in Hy. destruct Hy as [a [<- Ha]]. now apply Hx.
Qed.

(** ** Updates keyed by id *)

Lemma find_update_where {A : Type} (cond : A -> bool) (f : A -> A)
    (rows : list A) :
  (forall r, cond (f r) = cond r) ->
  find cond (Sql.update_where cond f rows) = option_map f (find cond rows).
Proof.
  intros Hf. induction rows as [| r rest IH]; simpl.
  - reflexivity.
  - destruct (cond r) eqn:E.
    + now rewrite Hf, E.
    + now rewrite E.
Qed.

Lemma find_update_where_other {A : Type} (cond other : A -> bool)
    (f : A -> A) (rows : list A) :
  (forall r, other (f r) = other r) ->
  (forall r, cond r = true -> other r = false) ->
  find other (Sql.update_where cond f rows) = find other rows.
Proof.
  intros Hf Hdisj. induction rows as [| r rest IH]; simpl.
  - reflexivity.
  - destruct (cond r) eqn:E.
    + rewrite Hf, (Hdisj r E). exact IH.
    + destruct (other r); [reflexivity | exact IH].
Qed.

(** ** Roles and capabilities *)

(** C3.  In the rank table admin and developer both have rank 3, yet the
    capability checks tell them apart: developer and owner may enter the
    dev-panel section and tag bug reports, admin may not. *)
Theorem C3_admin_developer_same_rank_different_capabilities :
  ROLE_HIERARCHY "admin" = Some 3
  /\ ROLE_HIERARCHY "developer" = Some 3
  /\ rank R_admin = rank R_developer
  /\ canAccessSection "developer" "dev-panel" = true
  /\ canAccessSection "owner" "dev-panel" = true
  /\ canAccessSection "admin" "dev-panel" = false
  /\ canTagBugReport "developer" = true
  /\ canTagBugReport "owner" = true
  /\ canTagBugReport "admin" = false.
Proof. repeat split. Qed.

(** Only developer and owner hold the two capabilities, whatever the rank. *)
Lemma dev_capabilities_by_role (r : Role) :
  canAccessSection (role_name r) "dev-panel" = canTagBugReport (role_name r)
  /\ (canTagBugReport (role_name r) = true <-> r = R_developer \/ r = R_owner).
Proof.
  split; [reflexivity |].
  destruct r; cbn; split; intros H; try discriminate; auto;
    destruct H as [H | H]; discriminate.
Qed.

(** ** Reputation badge *)

Lemma option_string_eqb_refl (a : option string) :
  Storage.option_string_eqb a a = true.
Proof. destruct a; simpl; [apply String.eqb_refl | reflexivity]. Qed.

Lemma updateUserBadge_idempotent (db : DB) (uid : Z) :
  Storage.updateUserBadge (Storage.updateUserBadge db uid) uid
  = Storage.updateUserBadge db uid.
Proof.
  unfold Storage.updateUserBadge at 2.
  destruct (Storage.getUser db uid) as [user |] eqn:G.
  - destruct (Storage.option_string_eqb _ (badge user)) eqn:E; simpl.
    + unfold Storage.updateUserBadge. now rewrite G, E.
    + unfold Storage.updateUserBadge at 2. rewrite G, E. simpl.
      unfold Storage.updateUserBadge, Storage.getUser. simpl.
      rewrite find_update_where by reflexivity.
      unfold Storage.getUser in G. rewrite G. simpl.
      now rewrite String.eqb_refl.
  - unfold Storage.updateUserBadge. now rewrite G.
Qed.

Lemma updateUserBadge_stores_badge (db : DB) (uid : Z) (user : User) :
  Storage.getUser db uid = Some user ->
  option_map badge (Storage.getUser (Storage.updateUserBadge db uid) uid)
  = Some (Some (Storage.badge_of (postCount user) (messageCount user))).
Proof.
  intros G. unfold Storage.updateUserBadge. rewrite G.
  destruct (Storage.option_string_eqb _ (badge user)) eqn:E; simpl.
  - rewrite G. simpl. f_equal.
    destruct (badge user) as [b |]; simpl in E; [| discriminate].
    apply String.eqb_eq in E. now rewrite E.
  - unfold Storage.getUser in *. simpl.
    rewrite find_update_where by reflexivity. now rewrite G.
Qed.

(** C4.  The badge depends on the two counters only through their sum and
    is the highest tier whose threshold the sum reaches: 300 legendary-qube,
    225 unique-qube, 150 epic-qube, 80 qubed, 35 climber, 10 member, below
    that new-member.  The sample points of the specification hold, and
    recomputing the badge of a user whose counters did not change leaves the
    database as it is. *)
Theorem C4_badge_thresholds (postCount messageCount : Z) :
  let total := postCount + messageCount in
  let b := Storage.badge_of (Some postCount) (Some messageCount) in
  b = Storage.newBadge total
  /\ (300 <= total -> b = "legendary-qube")
  /\ (225 <= total < 300 -> b = "unique-qube")
  /\ (150 <= total < 225 -> b = "epic-qube")
  /\ (80 <= total < 150 -> b = "qubed")
  /\ (35 <= total < 80 -> b = "climber")
  /\ (10 <= total < 35 -> b = "member")
  /\ (total < 10 -> b = "new-member")
  /\ Storage.badge_of (Some 9) (Some 0) = "new-member"
  /\ Storage.badge_of (Some 10) (Some 0) = "member"
  /\ Storage.badge_of (Some 34) (Some 0) = "member"
  /\ Storage.badge_of (Some 35) (Some 0) = "climber"
  /\ Storage.badge_of (Some 300) (Some 0) = "legendary-qube"
  /\ (forall db uid,
        Storage.updateUserBadge (Storage.updateUserBadge db uid) uid
        = Storage.updateUserBadge db uid).
Proof.
  cbv zeta. unfold Storage.badge_of, Storage.totalCount, Js.or0.
  split; [reflexivity |].
  unfold Storage.newBadge.
  repeat match goal with
  | |- _ /\ _ => split
  end; try reflexivity; try (apply updateUserBadge_idempotent);
  intros H;
  repeat match goal with
  | |- context [Z.leb ?a ?b] =>
      destruct (Z.leb_spec a b); try lia
  end; reflexivity.
Qed.

Lemma C4_badge_thresholds_witness :
  Storage.badge_of (Some 200) (Some 30) = "unique-qube".
Proof.
  refine (proj1 (proj2 (proj2 (C4_badge_thresholds 200 30))) _). lia.
Defined.

(** ** What [getPosts] returns *)

Lemma filter_all {A : Type} (f : A -> bool) (l : list A) :
  (forall x, In x l -> f x = true) -> filter f l = l.
Proof.
  induction l as [| x rest IH]; simpl; intros H.
  - reflexivity.
  - rewrite (H x (or_introl eq_refl)). f_equal. apply IH. auto.
Qed.

Lemma posts_of_getPosts (db : DB) (sec requesterRole : string) (id : Z) :
  map pwa_post (Storage.getPosts db sec requesterRole id)
  = Sql.orderBy_desc createdAt
      (filter (Storage.whereConditions sec requesterRole id) (posts db)).
Proof.
  unfold Storage.getPosts. rewrite map_map. simpl. apply map_id.
Qed.

Lemma In_getPosts (db : DB) (sec requesterRole : string) (id : Z)
    (x : PostWithAuthor) :
  In x (Storage.getPosts db sec requesterRole id) <->
  exists p, x = Storage.join_author db p /\ In p (posts db)
            /\ Storage.whereConditions sec requesterRole id p = true.
Proof.
  unfold Storage.getPosts. rewrite in_map_iff.
  split; intros [p [H1 H2]]; exists p.
  - apply In_orderBy_desc, filter_In in H2. now split.
  - split; [easy |]. now apply In_orderBy_desc, filter_In.
Qed.

Lemma In_posts_of_getPosts (db : DB) (sec requesterRole : string) (id : Z)
    (p : Post) :
  In p (map pwa_post (Storage.getPosts db sec requesterRole id)) <->
  In p (posts db) /\ Storage.whereConditions sec requesterRole id p = true.
Proof.
  rewrite posts_of_getPosts, In_orderBy_desc. apply filter_In.
Qed.

(** The page's report filter, as one boolean. *)
Lemma keep_reports_eq (user : User) (sec : string) (x : PostWithAuthor) :
  Page.keep_reports user sec x
  = Page.canViewAllInSection sec (role user)
    || Z.eqb (authorId (pwa_post x)) (user_id user).
Proof.
  unfold Page.keep_reports, Page.canViewAllInSection.
  destruct (String.eqb sec "player-reports"); simpl;
    [now destruct (Js.ge _ _) |].
  destruct (String.eqb sec "bug-reports"); simpl;
    [now destruct (_ || _) |].
  destruct (String.eqb sec "support-tickets"); simpl;
    [now destruct (Js.ge _ _) | reflexivity].
Qed.

(** For the six roles the [WHERE] clause of the server and the report
    filter of the page agree. *)
Lemma whereConditions_role (sec : string) (r : Role) (id : Z) (p : Post) :
  Storage.whereConditions sec (role_name r) id p
  = String.eqb (section p) sec
    && (Page.canViewAllInSection sec (role_name r)
        || Z.eqb (authorId p) id).
Proof.
  unfold Storage.whereConditions, Page.canViewAllInSection.
  destruct (String.eqb sec "player-reports");
    [| destruct (String.eqb sec "bug-reports");
       [| destruct (String.eqb sec "support-tickets")]];
    destruct r; simpl;
    destruct (String.eqb (section p) sec), (Z.eqb (authorId p) id);
    reflexivity.
Qed.

Lemma canViewAll_reports (sec role_ : string) :
  In sec ["player-reports"; "bug-reports"; "support-tickets"] ->
  Page.canViewAllInSection sec role_ = canViewAllReports role_ sec.
Proof.
  intros [<- | [<- | [<- | []]]]; reflexivity.
Qed.

Lemma listContent_PostList (db : DB) (viewer : User) (sec q : string)
    (items : list PostWithAuthor) :
  listContent db viewer sec q = Page.PostList items ->
  canAccessSection (role viewer) sec = true
  /\ items = Page.visiblePosts viewer sec q
               (Storage.getPosts db sec (role viewer) (user_id viewer)).
Proof.
  unfold listContent, Page.SectionPage.
  destruct (canAccessSection (role viewer) sec); simpl; intros H.
  - now inversion H.
  - discriminate.
Qed.

(** ** Soft-deleted posts in a listing *)

Lemma keep_deleted_below_admin (viewer : User) (r : Role)
    (x : PostWithAuthor) :
  role viewer = role_name r -> rank r < rank R_admin ->
  Page.keep_deleted viewer x = negb (deleted (pwa_post x)).
Proof.
  intros Hr Hlt. unfold Page.keep_deleted.
  rewrite Hr, canRevivePost_rank.
  destruct (deleted (pwa_post x)); simpl; [| reflexivity].
  apply Z.leb_gt. exact Hlt.
Qed.

Lemma keep_deleted_from_admin (viewer : User) (r : Role)
    (x : PostWithAuthor) :
  role viewer = role_name r -> rank R_admin <= rank r ->
  Page.keep_deleted viewer x = true.
Proof.
  intros Hr Hge. unfold Page.keep_deleted.
  rewrite Hr, canRevivePost_rank.
  destruct (deleted (pwa_post x)); simpl; [| reflexivity].
  apply Z.leb_le. exact Hge.
Qed.

(** C1.  In a listing, a viewer whose rank is below admin (3) gets no
    soft-deleted post.  For a viewer of rank admin or above the deleted
    filter drops nothing: the listing is the fetched section put through the
    report and search filters only, so every soft-deleted post of the
    section that passes those two filters is listed, with its deleted flag
    set. *)
Theorem C1_soft_deleted_visibility (db : DB) (viewer : User) (r : Role)
    (sec q : string) (items : list PostWithAuthor) :
  role viewer = role_name r ->
  listContent db viewer sec q = Page.PostList items ->
  (rank r < rank R_admin ->
   forall x, In x items -> deleted (pwa_post x) = false)
  /\ (rank R_admin <= rank r ->
      items = filter (Page.keep_search q)
                (filter (Page.keep_reports viewer sec)
                   (Storage.getPosts db sec (role viewer) (user_id viewer)))
      /\ forall p, In p (posts db) -> section p = sec -> deleted p = true ->
           Page.keep_reports viewer sec (Storage.join_author db p) = true ->
           Page.keep_search q (Storage.join_author db p) = true ->
           exists x, In x items /\ pwa_post x = p
                     /\ deleted (pwa_post x) = true).
Proof.
  intros Hr Hlist.
  apply listContent_PostList in Hlist. destruct Hlist as [_ ->].
  unfold Page.visiblePosts. split.
  - intros Hlt x Hx.
    apply filter_In in Hx. destruct Hx as [Hx _].
    apply filter_In in Hx. destruct Hx as [Hx _].
    apply filter_In in Hx. destruct Hx as [_ Hx].
    rewrite (keep_deleted_below_admin viewer r x Hr Hlt) in Hx.
    now apply negb_true_iff in Hx.
  - intros Hge.
    assert (Hall : filter (Page.keep_deleted viewer)
                     (Storage.getPosts db sec (role viewer) (user_id viewer))
                   = Storage.getPosts db sec (role viewer) (user_id viewer)).
    { apply filter_all. intros x _.
      exact (keep_deleted_from_admin viewer r x Hr Hge). }
    rewrite Hall. split; [reflexivity |].
    intros p Hp Hsec Hdel Hrep Hsearch.
    exists (Storage.join_author db p). repeat split; try assumption.
    apply filter_In. split; [| exact Hsearch].
    apply filter_In. split; [| exact Hrep].
    apply In_getPosts. exists p. repeat split; try assumption.
    rewrite Hr, whereConditions_role.
    rewrite keep_reports_eq, Hr in Hrep. simpl in Hrep.
    rewrite Hrep, andb_true_r. now apply String.eqb_eq.
Qed.

Lemma C1_soft_deleted_visibility_witness :
  deleted
    (pwa_post
       (Storage.join_author Sample.forum
          (Sample.post 1 "general" 1 "Hello" None 100))) = false
  /\ exists x,
       In x (Page.visiblePosts Sample.adam "general" ""
               (Storage.getPosts Sample.forum "general" "admin" 4))
       /\ pwa_post x = Sample.post 2 "general" 2 "Spam" (Some 3) 200
       /\ deleted (pwa_post x) = true.
Proof.
  split.
  - refine (proj1 (C1_soft_deleted_visibility Sample.forum Sample.alice
                     R_user "general" ""
                     [ Storage.join_author Sample.forum
                         (Sample.post 1 "general" 1 "Hello" None 100) ]
                     eq_refl eq_refl) _ _ _).
    + vm_compute. reflexivity.
    + simpl. auto.
  - refine (proj2 (proj2 (C1_soft_deleted_visibility Sample.forum Sample.adam
                     R_admin "general" "" _ eq_refl eq_refl) _)
              (Sample.post 2 "general" 2 "Spam" (Some 3) 200) _ _ _ _ _).
    + vm_compute. discriminate.
    + vm_compute. auto.
    + reflexivity.
    + reflexivity.
    + reflexivity.
    + reflexivity.
Defined.

(** ** Report sections: own posts or all posts *)

Lemma whereConditions_reports (sec : string) (viewer : User) (r : Role)
    (p : Post) :
  role viewer = role_name r ->
  In sec ["player-reports"; "bug-reports"; "support-tickets"] ->
  Storage.whereConditions sec (role viewer) (user_id viewer) p
  = String.eqb (section p) sec
    && (canViewAllReports (role viewer) sec
        || Z.eqb (authorId p) (user_id viewer)).
Proof.
  intros Hr Hsec.
  rewrite <- (canViewAll_reports sec (role viewer) Hsec), Hr.
  apply whereConditions_role.
Qed.

(** C2.  In the three report sections a viewer without full view
    ([canViewAllReports]: rank at least moderator for player-reports, the
    developer or owner role for bug-reports, rank at least helper for
    support-tickets) is served exactly the section's posts whose author is
    the viewer, and the page lists none by another author; a viewer with
    full view is served the section's posts of all authors, and the page's
    report filter drops none of them. *)
Theorem C2_own_posts_in_report_sections (db : DB) (viewer : User) (r : Role)
    (sec : string) :
  role viewer = role_name r ->
  In sec ["player-reports"; "bug-reports"; "support-tickets"] ->
  let fetched := Storage.getPosts db sec (role viewer) (user_id viewer) in
  (canViewAllReports (role viewer) sec = false ->
   (forall p, In p (map pwa_post fetched) <->
              In p (posts db) /\ section p = sec
              /\ authorId p = user_id viewer)
   /\ (forall q items,
         listContent db viewer sec q = Page.PostList items ->
         forall x, In x items -> authorId (pwa_post x) = user_id viewer))
  /\ (canViewAllReports (role viewer) sec = true ->
      (forall p, In p (map pwa_post fetched) <->
                 In p (posts db) /\ section p = sec)
      /\ (forall x, Page.keep_reports viewer sec x = true))
  /\ canViewAllReports (role_name r) "player-reports"
     = Z.leb (rank R_moderator) (rank r)
  /\ (canViewAllReports (role_name r) "bug-reports" = true <->
      r = R_developer \/ r = R_owner)
  /\ canViewAllReports (role_name r) "support-tickets"
     = Z.leb (rank R_helper) (rank r).
Proof.
  intros Hr Hsec fetched. subst fetched.
  split; [| split; [| split; [| split]]].
  - intros Hview. split.
    + intros p. rewrite In_posts_of_getPosts.
      rewrite (whereConditions_reports sec viewer r p Hr Hsec), Hview.
      simpl. rewrite andb_true_iff, String.eqb_eq, Z.eqb_eq. tauto.
    + intros q items Hlist x Hx.
      apply listContent_PostList in Hlist. destruct Hlist as [_ ->].
      unfold Page.visiblePosts in Hx.
      apply filter_In in Hx. destruct Hx as [Hx _].
      apply filter_In in Hx. destruct Hx as [_ Hx].
      rewrite keep_reports_eq, (canViewAll_reports sec _ Hsec), Hview in Hx.
      simpl in Hx. now apply Z.eqb_eq.
  - intros Hview. split.
    + intros p. rewrite In_posts_of_getPosts.
      rewrite (whereConditions_reports sec viewer r p Hr Hsec), Hview.
      simpl. rewrite andb_true_r, String.eqb_eq. tauto.
    + intros x.
      now rewrite keep_reports_eq, (canViewAll_reports sec _ Hsec), Hview.
  - exact (ge_rank r R_moderator).
  - destruct r; cbn; split; intros H; try discriminate; auto;
      destruct H as [H | H]; discriminate.
  - exact (ge_rank r R_helper).
Qed.

(** The helper's view of the bug reports: one own report, none of the two
    by other authors. *)
Lemma C2_own_posts_in_report_sections_witness :
  In (Sample.post 3 "bug-reports" 2 "Crash on login" None 300)
    (map pwa_post (Storage.getPosts Sample.forum "bug-reports" "helper" 2))
  <-> In (Sample.post 3 "bug-reports" 2 "Crash on login" None 300)
        (posts Sample.forum)
      /\ section (Sample.post 3 "bug-reports" 2 "Crash on login" None 300)
         = "bug-reports"
      /\ authorId (Sample.post 3 "bug-reports" 2 "Crash on login" None 300)
         = 2.
Proof.
  refine (proj1 (proj1 (C2_own_posts_in_report_sections Sample.forum
                          Sample.hana R_helper "bug-reports" eq_refl _) _)
            (Sample.post 3 "bug-reports" 2 "Crash on login" None 300)).
  - simpl. auto.
  - reflexivity.
Defined.

Example helper_lists_bug_reports :
  listContent Sample.forum Sample.hana "bug-reports" ""
  = Page.PostList
      [ Storage.join_author Sample.forum
          (Sample.post 3 "bug-reports" 2 "Crash on login" None 300) ].
Proof. reflexivity. Qed.

(** ** Order of a listing *)

Lemma getPosts_sorted (db : DB) (sec requesterRole : string) (id : Z) :
  StronglySorted (fun a b => newest_first (pwa_post a) (pwa_post b))
    (Storage.getPosts db sec requesterRole id).
Proof.
  unfold Storage.getPosts. apply StronglySorted_map. simpl.
  apply (orderBy_desc_sorted createdAt).
Qed.

(** C8, amended.  A listing is sorted by creation time, newest first; no
    order by id is imposed among posts created at the same time. *)
Theorem C8_listing_newest_first (db : DB) (viewer : User) (sec q : string)
    (items : list PostWithAuthor) :
  listContent db viewer sec q = Page.PostList items ->
  StronglySorted newest_first (map pwa_post items).
Proof.
  intros Hlist.
  apply listContent_PostList in Hlist. destruct Hlist as [_ ->].
  apply StronglySorted_map. unfold Page.visiblePosts.
  do 3 apply StronglySorted_filter.
  apply getPosts_sorted.
Qed.

Lemma C8_listing_newest_first_witness :
  StronglySorted newest_first
    (map pwa_post
       (Page.visiblePosts Sample.adam "general" ""
          (Storage.getPosts Sample.forum "general" "admin" 4))).
Proof.
  exact (C8_listing_newest_first Sample.forum Sample.adam "general" "" _
           eq_refl).
Defined.

(** The query leaves the order of equal creation times open: both orders
    of two such rows are permutations of the rows that are sorted newest
    first. *)
Lemma order_by_admits_both_tie_orders (a b : Post) :
  createdAt a = createdAt b ->
  (Permutation [a; b] [a; b] /\ StronglySorted newest_first [a; b])
  /\ (Permutation [a; b] [b; a] /\ StronglySorted newest_first [b; a]).
Proof.
  intros H. unfold newest_first.
  repeat split; try apply perm_swap; try reflexivity;
    repeat constructor; lia.
Qed.

(** C8, as stated, fails: two posts of one section created at the same
    instant are listed in scan order, the smaller id first. *)
Lemma C8_ties_not_ordered_by_id :
  exists items,
    listContent Sample.twins Sample.alice "general" "" = Page.PostList items
    /\ map (fun x => post_id (pwa_post x)) items = [1; 2]
    /\ ~ StronglySorted newest_then_id_desc (map pwa_post items).
Proof.
  eexists. split; [reflexivity |]. split; [reflexivity |].
  simpl. intros H. inversion H as [| a l _ Hhd]; subst.
  inversion Hhd as [| b l' Hab _]; subst.
  destruct Hab as [Hlt | [_ Hlt]]; simpl in Hlt; lia.
Qed.

(** The same two rows stored in the other order are listed in the other
    order. *)
Example twins_follow_scan_order :
  match listContent Sample.twins_swapped Sample.alice "general" "" with
  | Page.PostList items => map (fun x => post_id (pwa_post x)) items
  | Page.AccessDenied => []
  end = [2; 1].
Proof. reflexivity. Qed.

(** ** Deleting a post *)

Lemma session_user_Some (session : option Z) (uid : Z) :
  Routes.session_user session = Some uid -> session = Some uid /\ uid <> 0.
Proof.
  unfold Routes.session_user, Js.truthy.
  destruct session as [n |]; [| discriminate].
  destruct (Z.eqb_spec n 0); simpl; [discriminate |].
  intros H. inversion H. subst. now split.
Qed.

Lemma getPost_deletePost (db : DB) (id by_ : Z) :
  Storage.getPost (Storage.deletePost db id by_) id
  = option_map (Storage.mark_deleted by_) (Storage.getPost db id).
Proof.
  unfold Storage.getPost, Storage.deletePost. simpl.
  now apply find_update_where.
Qed.

Lemma getPost_deletePost_other (db : DB) (id by_ id' : Z) :
  id' <> id ->
  Storage.getPost (Storage.deletePost db id by_) id' = Storage.getPost db id'.
Proof.
  intros Hne. unfold Storage.getPost, Storage.deletePost. simpl.
  apply find_update_where_other; [reflexivity |].
  intros p Hp. apply Z.eqb_eq in Hp. rewrite Hp. now apply Z.eqb_neq.
Qed.

Lemma mark_deleted_fixpoint (by_ : Z) (p : Post) :
  Storage.mark_deleted by_ p = p <->
  deleted p = true /\ deletedBy p = Some by_.
Proof.
  destruct p as [i t c s a st d db_ ca ua]. unfold Storage.mark_deleted.
  simpl. split.
  - intros H. inversion H. now split.
  - intros [-> ->]. reflexivity.
Qed.

Lemma deletePost_idempotent (db : DB) (id by_ : Z) :
  Storage.deletePost (Storage.deletePost db id by_) id by_
  = Storage.deletePost db id by_.
Proof.
  unfold Storage.deletePost, Storage.set_posts, Sql.update_where. simpl.
  f_equal. rewrite map_map. apply map_ext. intros p.
  destruct (Z.eqb (post_id p) id) eqn:E; simpl; now rewrite E.
Qed.

(** C9, amended.  A delete by an actor of rank at least moderator answers
    200 and turns the post with that id into a deleted post whose
    [deletedBy] is the actor; no other field of it and no other post
    changes.  On a post that is already deleted the flag stays set and
    [deletedBy] is overwritten with the acting moderator: the post is left
    as it was exactly when that moderator is already the recorded one, and
    repeating one's own delete changes nothing more. *)
Theorem C9_delete_records_acting_moderator (db : DB) (session : option Z)
    (uid : Z) (user : User) (r : Role) (postId : Z) (post : Post) :
  Routes.session_user session = Some uid ->
  Storage.getUser db uid = Some user ->
  role user = role_name r ->
  rank R_moderator <= rank r ->
  Storage.getPost db postId = Some post ->
  let db' := fst (Routes.DELETE_api_posts db session postId) in
  code (snd (Routes.DELETE_api_posts db session postId)) = 200
  /\ db' = Storage.deletePost db postId uid
  /\ Storage.getPost db' postId = Some (Storage.mark_deleted uid post)
  /\ deleted (Storage.mark_deleted uid post) = true
  /\ deletedBy (Storage.mark_deleted uid post) = Some uid
  /\ (forall id', id' <> postId ->
        Storage.getPost db' id' = Storage.getPost db id')
  /\ (Storage.getPost db' postId = Storage.getPost db postId <->
      deleted post = true /\ deletedBy post = Some uid)
  /\ Storage.deletePost db' postId uid = db'.
Proof.
  intros Hs Hu Hr Hrank Hp. cbv zeta.
  unfold Routes.DELETE_api_posts.
  rewrite Hs, Hu, Hr.
  change (ROLE_HIERARCHY "moderator")
    with (ROLE_HIERARCHY (role_name R_moderator)).
  rewrite lt_rank, Hp.
  replace (Z.ltb (rank r) (rank R_moderator)) with false
    by (symmetry; apply Z.ltb_ge; exact Hrank).
  simpl. rewrite getPost_deletePost, Hp. simpl.
  split; [reflexivity |]. split; [reflexivity |]. split; [reflexivity |].
  split; [reflexivity |]. split; [reflexivity |].
  split; [| split].
  - intros id' Hne. now apply getPost_deletePost_other.
  - rewrite <- (mark_deleted_fixpoint uid post). split.
    + intros H. now inversion H.
    + intros H. now f_equal.
  - apply deletePost_idempotent.
Qed.

Lemma C9_delete_records_acting_moderator_witness :
  Storage.getPost (fst (Routes.DELETE_api_posts Sample.forum (Some 3) 1)) 1
  = Some (Storage.mark_deleted 3 (Sample.post 1 "general" 1 "Hello" None 100)).
Proof.
  refine (proj1 (proj2 (proj2
    (C9_delete_records_acting_moderator Sample.forum (Some 3) 3 Sample.mira
       R_moderator 1 (Sample.post 1 "general" 1 "Hello" None 100)
       eq_refl eq_refl eq_refl _ eq_refl)))).
  vm_compute. discriminate.
Defined.

(** C9, as stated, fails: post 2 was deleted by moderator 3; a delete of
    it by moderator 7 is accepted and changes its [deletedBy] to 7. *)
Lemma C9_second_delete_overwrites_deletedBy :
  let db' := fst (Routes.DELETE_api_posts Sample.forum (Some 7) 2) in
  option_map deleted (Storage.getPost Sample.forum 2) = Some true
  /\ option_map deletedBy (Storage.getPost Sample.forum 2) = Some (Some 3)
  /\ code (snd (Routes.DELETE_api_posts Sample.forum (Some 7) 2)) = 200
  /\ option_map deletedBy (Storage.getPost db' 2) = Some (Some 7)
  /\ Storage.getPost db' 2 <> Storage.getPost Sample.forum 2.
Proof.
  cbv zeta. repeat split. vm_compute. discriminate.
Qed.

(** ** Editing a post *)

Lemma hd_returning {A : Type} (cond : A -> bool) (f : A -> A)
    (rows : list A) :
  hd_error (Sql.returning cond f rows) = option_map f (find cond rows).
Proof.
  unfold Sql.returning. induction rows as [| r rest IH]; simpl.
  - reflexivity.
  - destruct (cond r); [reflexivity | exact IH].
Qed.

Lemma getPost_updatePost (db : DB) (id : Z) (u : Storage.PostUpdates)
    (now : Z) :
  Storage.getPost (fst (Storage.updatePost db id u now)) id
  = option_map (Storage.apply_updates u now) (Storage.getPost db id)
  /\ snd (Storage.updatePost db id u now)
     = option_map (Storage.apply_updates u now) (Storage.getPost db id).
Proof.
  unfold Storage.updatePost, Storage.getPost. simpl. split.
  - now apply find_update_where.
  - apply hd_returning.
Qed.

(** An edit by anyone but the author is refused with 403 and changes
    nothing. *)
Lemma PATCH_by_other_actor_denied (db : DB) (session : option Z) (uid : Z)
    (postId : Z) (post : Post) (reqBody : Storage.PostUpdates) (now : Z) :
  Routes.session_user session = Some uid ->
  Storage.getPost db postId = Some post ->
  authorId post <> uid ->
  Routes.PATCH_api_posts db session postId reqBody now
  = (db, Routes.say 403 "You can only edit your own posts").
Proof.
  intros Hs Hp Hne. unfold Routes.PATCH_api_posts. rewrite Hs, Hp.
  apply Z.eqb_neq in Hne. now rewrite Hne.
Qed.

(** C6, the code at the failing inputs.  The edit route never reads the
    soft-delete flag: the author's edit of a soft-deleted post is answered
    200 with the rewritten post, which has the new fields and the new
    [updatedAt] and is still deleted, where the claim asks for an
    authorization failure that leaves the post unchanged. *)
Theorem C6_author_edits_deleted_post (db : DB) (session : option Z)
    (uid postId : Z) (post : Post) (reqBody : Storage.PostUpdates) (now : Z) :
  Routes.session_user session = Some uid ->
  Storage.getPost db postId = Some post ->
  authorId post = uid ->
  deleted post = true ->
  Routes.updatePostSchema_parse reqBody = Some reqBody ->
  Routes.no_fields reqBody = false ->
  let edited := Storage.apply_updates reqBody now post in
  snd (Routes.PATCH_api_posts db session postId reqBody now)
  = Routes.json (Some edited)
  /\ Storage.getPost
       (fst (Routes.PATCH_api_posts db session postId reqBody now)) postId
     = Some edited
  /\ updatedAt edited = now
  /\ deleted edited = true
  /\ (forall t, Storage.upd_title reqBody = Some t -> title edited = t)
  /\ (forall c, Storage.upd_content reqBody = Some c -> content edited = c).
Proof.
  intros Hs Hp Ha Hdel Hparse Hfields. cbv zeta.
  destruct (getPost_updatePost db postId reqBody now) as [H1 H2].
  rewrite Hp in H1, H2. cbn [option_map] in H1, H2.
  unfold Routes.PATCH_api_posts.
  rewrite Hs, Hp, Ha, Z.eqb_refl, Hparse, Hfields. cbn [negb].
  destruct (Storage.updatePost db postId reqBody now) as [db' updated].
  cbn [fst snd] in *. subst updated.
  repeat split; auto.
  - intros t Ht. simpl. now rewrite Ht.
  - intros c Hc. simpl. now rewrite Hc.
Qed.

(** Hana edits the title of her post 2, which moderator 3 had deleted. *)
Lemma C6_author_edits_deleted_post_witness :
  snd (Routes.PATCH_api_posts Sample.forum (Some 2) 2
         (Storage.mkPostUpdates (Some "Not spam") None) 999)
  = Routes.json
      (Some {| post_id := 2; title := "Not spam"; content := "text";
               section := "general"; authorId := 2; status := None;
               deleted := true; deletedBy := Some 3;
               createdAt := 200; updatedAt := 999 |}).
Proof.
  exact (proj1 (C6_author_edits_deleted_post Sample.forum (Some 2) 2 2
                  (Sample.post 2 "general" 2 "Spam" (Some 3) 200)
                  (Storage.mkPostUpdates (Some "Not spam") None) 999
                  eq_refl eq_refl eq_refl eq_refl eq_refl eq_refl)).
Defined.

(** ** Appeals *)

Lemma appeal_staff_roles (user : option User) :
  Routes.not_appeal_staff user = false <->
  exists u, user = Some u
            /\ (role u = "owner" \/ role u = "admin" \/ role u = "moderator").
Proof.
  unfold Routes.not_appeal_staff. destruct user as [u |].
  - destruct (String.eqb_spec (role u) "owner") as [Ho | Ho];
    destruct (String.eqb_spec (role u) "admin") as [Ha | Ha];
    destruct (String.eqb_spec (role u) "moderator") as [Hm | Hm];
    simpl; split; intros H; try discriminate; try reflexivity;
    try (exists u; tauto).
    destruct H as [u' [Hu [H | [H | H]]]]; inversion Hu; subst; contradiction.
  - split; [discriminate |]. intros [u [H _]]. discriminate.
Qed.

(** A new appeal is Pending. *)
Lemma createAppeal_pending (db : DB) (a : Storage.NewAppeal) (now : Z) :
  decision (snd (Storage.createAppeal db a now)) = Pending
  /\ In (snd (Storage.createAppeal db a now))
       (appeals (fst (Storage.createAppeal db a now))).
Proof.
  split; [reflexivity |]. simpl. apply in_or_app. right. now left.
Qed.

(** The appeal that the create route answers with is Pending, whoever
    files it. *)
Lemma POST_api_appeals_pending (db : DB) (session : option Z) (uid : Z)
    (d : Storage.NewAppeal) (now : Z) :
  Routes.session_user session = Some uid ->
  exists appeal,
    snd (Routes.POST_api_appeals db session (Some d) now) = Routes.json appeal
    /\ decision appeal = Pending
    /\ appeal_userId appeal = uid.
Proof.
  intros Hs. unfold Routes.POST_api_appeals. rewrite Hs. simpl.
  eexists. repeat split.
Qed.

(** The appeal routes turn a developer away, although the developer's rank
    is that of an admin. *)
Lemma developer_is_not_appeal_staff :
  rank R_moderator <= rank R_developer
  /\ Routes.not_appeal_staff (Some Sample.dana) = true.
Proof. split; [vm_compute; discriminate | reflexivity]. Qed.

(** C5, the code at the failing inputs.  For a moderator, admin or owner
    the approve and the reject route answer 200 and leave the database, and
    so the decision of every appeal, as it was; a second call gets the same
    answer as the first.  The claim asks for a transition from Pending to
    Approved or Rejected on the first call and a conflict on the second. *)
Theorem C5_deciding_an_appeal_changes_nothing (db : DB) (session : option Z)
    (uid : Z) (user : User) (appealId : Z) :
  Routes.session_user session = Some uid ->
  Storage.getUser db uid = Some user ->
  In (role user) ["moderator"; "admin"; "owner"] ->
  let approve := Routes.POST_api_appeals_approve in
  let reject := Routes.POST_api_appeals_reject in
  approve db session appealId = (db, Routes.say 200 "Appeal approved")
  /\ reject db session appealId = (db, Routes.say 200 "Appeal rejected")
  /\ approve (fst (approve db session appealId)) session appealId
     = approve db session appealId
  /\ reject (fst (approve db session appealId)) session appealId
     = (db, Routes.say 200 "Appeal rejected")
  /\ appeals (fst (approve db session appealId)) = appeals db
  /\ appeals (fst (reject db session appealId)) = appeals db.
Proof.
  intros Hs Hu Hrole. cbv zeta.
  assert (Hstaff : Routes.not_appeal_staff (Storage.getUser db uid) = false).
  { apply appeal_staff_roles. exists user. split; [exact Hu |].
    simpl in Hrole. destruct Hrole as [H | [H | [H | []]]]; auto. }
  unfold Routes.POST_api_appeals_approve, Routes.POST_api_appeals_reject.
  rewrite Hs, Hstaff. cbn [fst]. rewrite Hstaff. repeat split.
Qed.

(** Moderator Mira approves the pending appeal 1, twice: it stays Pending
    and both calls answer 200. *)
Lemma C5_deciding_an_appeal_changes_nothing_witness :
  Routes.POST_api_appeals_approve Sample.forum (Some 3) 1
  = (Sample.forum, Routes.say 200 "Appeal approved")
  /\ Routes.POST_api_appeals_approve
       (fst (Routes.POST_api_appeals_approve Sample.forum (Some 3) 1))
       (Some 3) 1
     = Routes.POST_api_appeals_approve Sample.forum (Some 3) 1
  /\ map decision (appeals Sample.forum)
     = [Pending; Approved; Pending; Rejected].
Proof.
  assert (H := C5_deciding_an_appeal_changes_nothing Sample.forum (Some 3) 3
                 Sample.mira 1 eq_refl eq_refl (or_introl eq_refl)).
  cbv zeta in H. destruct H as [H1 [_ [H3 _]]].
  split; [exact H1 |]. split; [exact H3 | reflexivity].
Defined.

(** ** Entering the dev-panel section *)

(** The page tells a refusal from an empty listing. *)
Lemma AccessDenied_is_not_an_empty_list :
  Page.AccessDenied <> Page.PostList [].
Proof. discriminate. Qed.

(** The page refuses a viewer without the dev-panel capability whatever
    posts it was sent. *)
Lemma SectionPage_denies_dev_panel (user : User) (q : string)
    (data : list PostWithAuthor) :
  canAccessSection (role user) "dev-panel" = false ->
  Page.SectionPage user "dev-panel" q data = Page.AccessDenied.
Proof. intros H. unfold Page.SectionPage. now rewrite H. Qed.

(** C7, the code at the failing inputs.  The route that lists a section
    makes no capability check: to a signed-in viewer whose role may not
    enter dev-panel it answers 200 with every post of dev-panel instead of
    an authorization failure.  The refusal comes only afterwards, from the
    page, which discards the posts it was sent. *)
Theorem C7_route_lists_dev_panel_unchecked (db : DB) (session : option Z)
    (uid : Z) (user : User) :
  Routes.session_user session = Some uid ->
  Storage.getUser db uid = Some user ->
  canAccessSection (role user) "dev-panel" = false ->
  exists data,
    Routes.GET_api_posts db session "dev-panel" = Routes.json data
    /\ (forall p, In p (map pwa_post data) <->
                  In p (posts db) /\ section p = "dev-panel")
    /\ (forall q,
          Page.SectionPage user "dev-panel" q data = Page.AccessDenied).
Proof.
  intros Hs Hu Hcap.
  exists (Storage.getPosts db "dev-panel" (role user) (user_id user)).
  split; [| split].
  - unfold Routes.GET_api_posts. now rewrite Hs, Hu.
  - intros p. rewrite In_posts_of_getPosts.
    unfold Storage.whereConditions. simpl.
    now rewrite String.eqb_eq.
  - intros q. now apply SectionPage_denies_dev_panel.
Qed.

(** Alice, a plain user, requests the dev-panel listing and is sent the
    developers' note. *)
Lemma C7_route_lists_dev_panel_unchecked_witness :
  exists data,
    Routes.GET_api_posts Sample.forum (Some 1) "dev-panel" = Routes.json data
    /\ (forall p, In p (map pwa_post data) <->
                  In p (posts Sample.forum) /\ section p = "dev-panel")
    /\ (forall q,
          Page.SectionPage Sample.alice "dev-panel" q data
          = Page.AccessDenied).
Proof.
  exact (C7_route_lists_dev_panel_unchecked Sample.forum (Some 1) 1
           Sample.alice eq_refl eq_refl eq_refl).
Defined.

Example alice_is_sent_the_dev_panel :
  Routes.GET_api_posts Sample.forum (Some 1) "dev-panel"
  = Routes.json
      [ Storage.join_author Sample.forum
          (Sample.post 6 "dev-panel" 5 "Deploy keys" None 400) ].
Proof. reflexivity. Qed.

(** ** Listing appeals *)

Lemma In_getAppeals (m : Sql.NullComparison) (db : DB) (a : Appeal) :
  In a (Storage.getAppeals m db) ->
  In a (appeals db) /\ approved a = None.
Proof.
  unfold Storage.getAppeals. rewrite In_orderBy_desc, filter_In.
  intros [Hin Hnull]. split; [exact Hin |].
  destruct m, (approved a); simpl in Hnull; congruence.
Qed.

(** Under three-valued logic the comparison with null selects no row. *)
Lemma getAppeals_three_valued (db : DB) :
  Storage.getAppeals Sql.ThreeValued db = [].
Proof.
  unfold Storage.getAppeals.
  induction (appeals db) as [| a rest IH]; simpl; [reflexivity | exact IH].
Qed.

(** Under the is-null reading every pending appeal is selected. *)
Lemma getAppeals_is_null (db : DB) (a : Appeal) :
  In a (Storage.getAppeals Sql.IsNull db) <->
  In a (appeals db) /\ approved a = None.
Proof.
  split; [apply In_getAppeals |].
  unfold Storage.getAppeals. rewrite In_orderBy_desc, filter_In.
  intros [Hin Hnull]. split; [exact Hin |]. now rewrite Hnull.
Qed.

(** C10.  When the appeals route answers with a list, the viewer's role is
    owner, admin or moderator, hence of rank at least moderator; every
    listed appeal is a stored appeal whose [approved] column is null, that
    is Pending, so no Approved or Rejected appeal is listed; and the list
    is ordered by creation time, newest first. *)
Theorem C10_listed_appeals_are_pending (m : Sql.NullComparison) (db : DB)
    (session : option Z) (listed : list Appeal) :
  Routes.GET_api_appeals m db session = Routes.json listed ->
  (exists uid user r,
      session = Some uid /\ Storage.getUser db uid = Some user
      /\ role user = role_name r /\ rank R_moderator <= rank r)
  /\ (forall a, In a listed ->
        In a (appeals db) /\ approved a = None /\ decision a = Pending)
  /\ (forall a, In a listed -> decision a <> Approved /\ decision a <> Rejected)
  /\ StronglySorted (Sql.descending appeal_createdAt) listed.
Proof.
  unfold Routes.GET_api_appeals.
  destruct (Routes.session_user session) as [uid |] eqn:Hs;
    [| discriminate].
  destruct (Routes.not_appeal_staff (Storage.getUser db uid)) eqn:Hstaff;
    [discriminate |].
  intros H. inversion H as [Hl]. clear H.
  apply session_user_Some in Hs. destruct Hs as [-> _].
  apply appeal_staff_roles in Hstaff.
  destruct Hstaff as [user [Hu Hrole]].
  assert (Hpending : forall a, In a (Storage.getAppeals m db) ->
            In a (appeals db) /\ approved a = None /\ decision a = Pending).
  { intros a Ha. apply In_getAppeals in Ha. destruct Ha as [Hin Hnull].
    unfold decision. now rewrite Hnull. }
  split; [| split; [| split]].
  - exists uid, user.
    destruct Hrole as [Hr | [Hr | Hr]];
      [exists R_owner | exists R_admin | exists R_moderator];
      repeat split; auto; vm_compute; discriminate.
  - exact Hpending.
  - intros a Ha. destruct (Hpending a Ha) as [_ [_ Hd]].
    rewrite Hd. split; discriminate.
  - apply (orderBy_desc_sorted appeal_createdAt).
Qed.

(** Moderator Mira lists the appeals of the sample forum: the two pending
    ones, the newer first. *)
Lemma C10_listed_appeals_are_pending_witness :
  In (mkAppeal 3 1 13 "Please" None 520) (appeals Sample.forum)
  /\ approved (mkAppeal 3 1 13 "Please" None 520) = None
  /\ decision (mkAppeal 3 1 13 "Please" None 520) = Pending.
Proof.
  refine (proj1 (proj2 (C10_listed_appeals_are_pending Sql.IsNull Sample.forum
                          (Some 3)
                          [ mkAppeal 3 1 13 "Please" None 520;
                            mkAppeal 1 1 11 "I was framed" None 500 ]
                          eq_refl))
            (mkAppeal 3 1 13 "Please" None 520) _).
  simpl. auto.
Defined.

(** * Further properties of the storage layer and the routes *)

(** ** Lookups and updates by id *)

Lemma getUser_Some (db : DB) (uid : Z) (u : User) :
  Storage.getUser db uid = Some u -> user_id u = uid /\ In u (users db).
Proof.
  unfold Storage.getUser. intros H. apply find_some in H.
  destruct H as [Hin Heq]. apply Z.eqb_eq in Heq. now split.
Qed.

Lemma getPost_Some (db : DB) (id : Z) (p : Post) :
  Storage.getPost db id = Some p -> post_id p = id /\ In p (posts db).
Proof.
  unfold Storage.getPost. intros H. apply find_some in H.
  destruct H as [Hin Heq]. apply Z.eqb_eq in Heq. now split.
Qed.

Lemma update_where_no_match {A : Type} (cond : A -> bool) (f : A -> A)
    (rows : list A) :
  find cond rows = None -> Sql.update_where cond f rows = rows.
Proof.
  induction rows as [| r rest IH]; simpl; [reflexivity |].
  destruct (cond r); [discriminate |].
  intros H. now rewrite (IH H).
Qed.

Lemma map_update_where {A B : Type} (g : A -> B) (cond : A -> bool)
    (f : A -> A) (rows : list A) :
  (forall r, g (f r) = g r) ->
  map g (Sql.update_where cond f rows) = map g rows.
Proof.
  intros Hg. unfold Sql.update_where. rewrite map_map.
  apply map_ext. intros r. now destruct (cond r).
Qed.

Lemma update_where_fixed {A : Type} (cond : A -> bool) (f : A -> A)
    (rows : list A) :
  (forall r, In r rows -> cond r = true -> f r = r) ->
  Sql.update_where cond f rows = rows.
Proof.
  induction rows as [| r rest IH]; simpl; intros H; [reflexivity |].
  f_equal.
  - destruct (cond r) eqn:E; [apply H; auto | reflexivity].
  - apply IH. intros r' Hin. apply H. now right.
Qed.

Lemma update_where_twice {A : Type} (cond : A -> bool) (f g : A -> A)
    (rows : list A) :
  (forall r, cond (f r) = cond r) ->
  Sql.update_where cond g (Sql.update_where cond f rows)
  = Sql.update_where cond (fun r => g (f r)) rows.
Proof.
  intros Hf. unfold Sql.update_where. rewrite map_map.
  apply map_ext. intros r.
  destruct (cond r) eqn:E; [now rewrite Hf, E | now rewrite E].
Qed.

Lemma getPost_set_posts (db : DB) (id : Z) (f : Post -> Post) :
  (forall p, post_id (f p) = post_id p) ->
  Storage.getPost
    (Storage.set_posts db
       (Sql.update_where (fun p => Z.eqb (post_id p) id) f (posts db))) id
  = option_map f (Storage.getPost db id).
Proof.
  intros Hf. unfold Storage.getPost. simpl.
  apply find_update_where. intros p. now rewrite Hf.
Qed.

Lemma getPost_set_posts_other (db : DB) (id id' : Z) (f : Post -> Post) :
  (forall p, post_id (f p) = post_id p) -> id' <> id ->
  Storage.getPost
    (Storage.set_posts db
       (Sql.update_where (fun p => Z.eqb (post_id p) id) f (posts db))) id'
  = Storage.getPost db id'.
Proof.
  intros Hf Hne. unfold Storage.getPost. simpl.
  apply find_update_where_other.
  - intros p. now rewrite Hf.
  - intros p Hp. apply Z.eqb_eq in Hp. rewrite Hp. now apply Z.eqb_neq.
Qed.

Lemma DB_eta (db : DB) :
  {| users := users db; posts := posts db; appeals := appeals db |} = db.
Proof. now destruct db. Qed.

Lemma rank_guard (r t : Role) :
  Js.lt (ROLE_HIERARCHY (role_name r)) (ROLE_HIERARCHY (role_name t))
  = negb (Js.ge (ROLE_HIERARCHY (role_name r)) (ROLE_HIERARCHY (role_name t))).
Proof.
  rewrite lt_rank, ge_rank. apply Z.ltb_antisym.
Qed.

(** ** Restoring a post *)

(** X1.  A revive by an actor of rank at least admin answers 200 and turns
    the post with that id into a live post without [deletedBy]; its other
    fields and the other posts stay as they are. *)
Theorem revive_route_clears_the_deletion (db : DB) (session : option Z)
    (uid : Z) (user : User) (r : Role) (postId : Z) (post : Post) :
  Routes.session_user session = Some uid ->
  Storage.getUser db uid = Some user ->
  role user = role_name r ->
  rank R_admin <= rank r ->
  Storage.getPost db postId = Some post ->
  let out := Routes.POST_api_posts_revive db session postId in
  snd out = Routes.say 200 "Post revived successfully"
  /\ Storage.getPost (fst out) postId = Some (Storage.mark_revived post)
  /\ deleted (Storage.mark_revived post) = false
  /\ deletedBy (Storage.mark_revived post) = None
  /\ (title (Storage.mark_revived post), content (Storage.mark_revived post),
      status (Storage.mark_revived post), updatedAt (Storage.mark_revived post))
     = (title post, content post, status post, updatedAt post)
  /\ (forall id', id' <> postId ->
        Storage.getPost (fst out) id' = Storage.getPost db id').
Proof.
  intros Hs Hu Hr Hrank Hp. cbv zeta.
  unfold Routes.POST_api_posts_revive. rewrite Hs, Hu, Hr.
  change (ROLE_HIERARCHY "admin") with (ROLE_HIERARCHY (role_name R_admin)).
  rewrite lt_rank, Hp.
  replace (Z.ltb (rank r) (rank R_admin)) with false
    by (symmetry; apply Z.ltb_ge; exact Hrank).
  cbn [fst snd]. unfold Storage.revivePost.
  rewrite getPost_set_posts by reflexivity. rewrite Hp.
  repeat split.
  intros id' Hne. now apply getPost_set_posts_other.
Qed.

Lemma revive_route_clears_the_deletion_witness :
  Storage.getPost
    (fst (Routes.POST_api_posts_revive Sample.forum (Some 4) 2)) 2
  = Some (Sample.post 2 "general" 2 "Spam" None 200).
Proof.
  refine (proj1 (proj2
    (revive_route_clears_the_deletion Sample.forum (Some 4) 4 Sample.adam
       R_admin 2 (Sample.post 2 "general" 2 "Spam" (Some 3) 200)
       eq_refl eq_refl eq_refl _ eq_refl))).
  vm_compute. discriminate.
Defined.

(** X2.  Delete and revive undo each other on a live post: when a
    moderator deletes a post that was live and an admin then revives it,
    the database is exactly what it was before the two requests. *)
Theorem delete_then_revive_restores_the_database (db : DB)
    (moderator admin : option Z) (mid aid : Z) (muser auser : User)
    (mr ar : Role) (postId : Z) (post : Post) :
  Routes.session_user moderator = Some mid ->
  Storage.getUser db mid = Some muser ->
  role muser = role_name mr -> rank R_moderator <= rank mr ->
  Routes.session_user admin = Some aid ->
  Storage.getUser db aid = Some auser ->
  role auser = role_name ar -> rank R_admin <= rank ar ->
  Storage.getPost db postId = Some post ->
  (forall p, In p (posts db) -> post_id p = postId ->
             deleted p = false /\ deletedBy p = None) ->
  let deleted_db := fst (Routes.DELETE_api_posts db moderator postId) in
  option_map deleted (Storage.getPost deleted_db postId) = Some true
  /\ fst (Routes.POST_api_posts_revive deleted_db admin postId) = db.
Proof.
  intros Hm Hmu Hmr Hmrank Ha Hau Har Harank Hp Hlive. cbv zeta.
  assert (Hdel : fst (Routes.DELETE_api_posts db moderator postId)
                 = Storage.deletePost db postId mid).
  { unfold Routes.DELETE_api_posts. rewrite Hm, Hmu, Hmr.
    change (ROLE_HIERARCHY "moderator")
      with (ROLE_HIERARCHY (role_name R_moderator)).
    rewrite lt_rank, Hp.
    replace (Z.ltb (rank mr) (rank R_moderator)) with false
      by (symmetry; apply Z.ltb_ge; exact Hmrank).
    reflexivity. }
  rewrite Hdel. split.
  - rewrite getPost_deletePost, Hp. reflexivity.
  - unfold Routes.POST_api_posts_revive. rewrite Ha.
    change (Storage.getUser (Storage.deletePost db postId mid) aid)
      with (Storage.getUser db aid).
    rewrite Hau, Har.
    change (ROLE_HIERARCHY "admin") with (ROLE_HIERARCHY (role_name R_admin)).
    rewrite lt_rank.
    replace (Z.ltb (rank ar) (rank R_admin)) with false
      by (symmetry; apply Z.ltb_ge; exact Harank).
    rewrite getPost_deletePost, Hp. cbn [option_map fst].
    unfold Storage.revivePost, Storage.deletePost, Storage.set_posts.
    cbn [users posts appeals].
    rewrite update_where_twice by reflexivity.
    rewrite update_where_fixed; [apply DB_eta |].
    intros p Hin Hid. apply Z.eqb_eq in Hid.
    destruct (Hlive p Hin Hid) as [H1 H2].
    destruct p. simpl in *. now subst.
Qed.

Lemma delete_then_revive_restores_the_database_witness :
  fst (Routes.POST_api_posts_revive
         (fst (Routes.DELETE_api_posts Sample.forum (Some 3) 1)) (Some 4) 1)
  = Sample.forum.
Proof.
  refine (proj2
    (delete_then_revive_restores_the_database Sample.forum (Some 3) (Some 4)
       3 4 Sample.mira Sample.adam R_moderator R_admin 1
       (Sample.post 1 "general" 1 "Hello" None 100)
       eq_refl eq_refl eq_refl _ eq_refl eq_refl eq_refl _ eq_refl _)).
  - vm_compute. discriminate.
  - vm_compute. discriminate.
  - intros p Hin Hid. simpl in Hin.
    repeat (destruct Hin as [<- | Hin];
            [try (vm_compute in Hid; discriminate); now split |]).
    contradiction.
Defined.

(** ** The rank guards of the post routes *)

(** X3.  For a user with one of the six roles the server's guards are the
    client's predicates: the delete route answers 403 and changes nothing
    exactly when [canDeletePost] is false, the revive route exactly when
    [canRevivePost] is false; and whoever may revive may delete. *)
Theorem post_guards_are_the_client_predicates (db : DB) (session : option Z)
    (uid : Z) (user : User) (r : Role) (postId : Z) :
  Routes.session_user session = Some uid ->
  Storage.getUser db uid = Some user ->
  role user = role_name r ->
  (canDeletePost (role user) = false <->
   Routes.DELETE_api_posts db session postId
   = (db, Routes.say 403 "Insufficient permissions"))
  /\ (canRevivePost (role user) = false <->
      Routes.POST_api_posts_revive db session postId
      = (db, Routes.say 403 "Insufficient permissions"))
  /\ (canRevivePost (role user) = true -> canDeletePost (role user) = true).
Proof.
  intros Hs Hu Hr.
  unfold Routes.DELETE_api_posts, Routes.POST_api_posts_revive,
    canDeletePost, canRevivePost.
  rewrite Hs, Hu, Hr.
  change (ROLE_HIERARCHY "moderator")
    with (ROLE_HIERARCHY (role_name R_moderator)).
  change (ROLE_HIERARCHY "admin") with (ROLE_HIERARCHY (role_name R_admin)).
  rewrite !rank_guard, !ge_rank.
  split; [| split].
  - destruct (Z.leb (rank R_moderator) (rank r)); simpl;
      [| now split].
    split; [discriminate |].
    destruct (Storage.getPost db postId); intros H; inversion H.
  - destruct (Z.leb (rank R_admin) (rank r)); simpl;
      [| now split].
    split; [discriminate |].
    destruct (Storage.getPost db postId); intros H; inversion H.
  - destruct r; vm_compute; congruence.
Qed.

Lemma post_guards_are_the_client_predicates_witness :
  Routes.DELETE_api_posts Sample.forum (Some 2) 1
  = (Sample.forum, Routes.say 403 "Insufficient permissions").
Proof.
  refine (proj1 (proj1
    (post_guards_are_the_client_predicates Sample.forum (Some 2) 2
       Sample.hana R_helper 1 eq_refl eq_refl eq_refl)) _).
  reflexivity.
Defined.

Lemma whereConditions_unranked (sec role_ : string) (id : Z) (p : Post) :
  ROLE_HIERARCHY role_ = None ->
  In sec ["player-reports"; "support-tickets"] ->
  Storage.whereConditions sec role_ id p = String.eqb (section p) sec.
Proof.
  intros Hnone [<- | [<- | []]];
    unfold Storage.whereConditions; rewrite Hnone; reflexivity.
Qed.

(** X4.  A stored role that is not a key of the rank table passes every
    rank guard of the server, because a comparison with [undefined] is
    false: such a user's delete and revive are carried out, and the server
    sends them the player reports and support tickets of all authors;
    the client's predicates, which use [>=], all say no. *)
Theorem unranked_role_passes_the_server_guards (db : DB) (session : option Z)
    (uid : Z) (user : User) (postId : Z) (post : Post) :
  Routes.session_user session = Some uid ->
  Storage.getUser db uid = Some user ->
  ROLE_HIERARCHY (role user) = None ->
  Storage.getPost db postId = Some post ->
  canDeletePost (role user) = false
  /\ canRevivePost (role user) = false
  /\ Routes.DELETE_api_posts db session postId
     = (Storage.deletePost db postId uid,
        Routes.say 200 "Post deleted successfully")
  /\ Routes.POST_api_posts_revive db session postId
     = (Storage.revivePost db postId,
        Routes.say 200 "Post revived successfully")
  /\ (forall sec p,
        In sec ["player-reports"; "support-tickets"] ->
        (In p (map pwa_post
                 (Storage.getPosts db sec (role user) (user_id user)))
         <-> In p (posts db) /\ section p = sec)
        /\ canViewAllReports (role user) sec = false).
Proof.
  intros Hs Hu Hnone Hp.
  unfold canDeletePost, canRevivePost, Routes.DELETE_api_posts,
    Routes.POST_api_posts_revive.
  rewrite Hs, Hu, Hnone, Hp. simpl.
  repeat split; try tauto.
  - rewrite In_posts_of_getPosts in H0. tauto.
  - rewrite In_posts_of_getPosts in H0. destruct H0 as [_ H0].
    rewrite (whereConditions_unranked sec _ _ p Hnone H) in H0.
    now apply String.eqb_eq.
  - intros [Hin Hsec]. rewrite In_posts_of_getPosts. split; [exact Hin |].
    rewrite (whereConditions_unranked sec _ _ p Hnone H).
    now apply String.eqb_eq.
  - destruct H as [<- | [<- | []]]; unfold canViewAllReports;
      rewrite Hnone; reflexivity.
Qed.

Lemma unranked_role_passes_the_server_guards_witness :
  Routes.DELETE_api_posts Scenario.forum_with_guest (Some 8) 1
  = (Storage.deletePost Scenario.forum_with_guest 1 8,
     Routes.say 200 "Post deleted successfully").
Proof.
  exact (proj1 (proj2 (proj2
    (unranked_role_passes_the_server_guards Scenario.forum_with_guest
       (Some 8) 8 Scenario.gus 1
       (Sample.post 1 "general" 1 "Hello" None 100)
       eq_refl eq_refl eq_refl eq_refl)))).
Defined.

(** ** What the post routes leave alone *)

(** X5.  A request to edit, delete, revive or re-status a post that is
    not answered 200 leaves the database exactly as it was. *)
Theorem refused_post_requests_change_nothing (db : DB) (session : option Z)
    (postId : Z) (reqBody : Storage.PostUpdates) (now : Z)
    (status : option string) :
  (code (snd (Routes.PATCH_api_posts db session postId reqBody now)) <> 200 ->
   fst (Routes.PATCH_api_posts db session postId reqBody now) = db)
  /\ (code (snd (Routes.DELETE_api_posts db session postId)) <> 200 ->
      fst (Routes.DELETE_api_posts db session postId) = db)
  /\ (code (snd (Routes.POST_api_posts_revive db session postId)) <> 200 ->
      fst (Routes.POST_api_posts_revive db session postId) = db)
  /\ (code (snd (Posting.POST_api_posts_status db session postId status))
      <> 200 ->
      fst (Posting.POST_api_posts_status db session postId status) = db).
Proof.
  unfold Routes.PATCH_api_posts, Routes.DELETE_api_posts,
    Routes.POST_api_posts_revive, Posting.POST_api_posts_status.
  destruct (Routes.session_user session) as [uid |];
    [| repeat split].
  repeat split.
  - destruct (Storage.getPost db postId) as [post |]; [| reflexivity].
    destruct (negb (Z.eqb (authorId post) uid)); [reflexivity |].
    destruct (Routes.updatePostSchema_parse reqBody) as [v |];
      [| reflexivity].
    destruct (Routes.no_fields v); [reflexivity |].
    destruct (Storage.updatePost db postId v now) as [db' updated].
    simpl. intros H. now contradiction H.
  - destruct (Storage.getUser db uid) as [user |]; [| reflexivity].
    destruct (Js.lt _ _); [reflexivity |].
    destruct (Storage.getPost db postId); [| reflexivity].
    simpl. intros H. now contradiction H.
  - destruct (Storage.getUser db uid) as [user |]; [| reflexivity].
    destruct (Js.lt _ _); [reflexivity |].
    destruct (Storage.getPost db postId); [| reflexivity].
    simpl. intros H. now contradiction H.
  - destruct (Storage.getUser db uid) as [user |]; [| reflexivity].
    destruct (_ && _); [reflexivity |].
    destruct status as [s |]; [| reflexivity].
    destruct (negb (Js.nonempty s)); [reflexivity |].
    simpl. intros H. now contradiction H.
Qed.

Lemma refused_post_requests_change_nothing_witness :
  fst (Routes.PATCH_api_posts Sample.forum (Some 1) 2
         (Storage.mkPostUpdates (Some "Mine now") None) 999)
  = Sample.forum.
Proof.
  refine (proj1
    (refused_post_requests_change_nothing Sample.forum (Some 1) 2
       (Storage.mkPostUpdates (Some "Mine now") None) 999 None) _).
  vm_compute. discriminate.
Defined.


(** ** Editing and re-statusing *)

(** X7.  A successful edit rewrites only what was sent: a field that the
    request leaves out keeps its value, [updatedAt] becomes the request
    time, the post's id, author, section, status, deletion state and
    creation time are kept, and every other post is untouched. *)
Theorem edit_rewrites_only_the_sent_fields (db : DB) (session : option Z)
    (uid postId : Z) (post : Post) (reqBody : Storage.PostUpdates) (now : Z) :
  Routes.session_user session = Some uid ->
  Storage.getPost db postId = Some post ->
  authorId post = uid ->
  Routes.updatePostSchema_parse reqBody = Some reqBody ->
  Routes.no_fields reqBody = false ->
  let db' := fst (Routes.PATCH_api_posts db session postId reqBody now) in
  exists edited,
    Storage.getPost db' postId = Some edited
    /\ (Storage.upd_title reqBody = None -> title edited = title post)
    /\ (Storage.upd_content reqBody = None -> content edited = content post)
    /\ updatedAt edited = now
    /\ (post_id edited, authorId edited, section edited, status edited,
        deleted edited, deletedBy edited, createdAt edited)
       = (post_id post, authorId post, section post, status post,
          deleted post, deletedBy post, createdAt post)
    /\ (forall id', id' <> postId ->
          Storage.getPost db' id' = Storage.getPost db id').
Proof.
  intros Hs Hp Ha Hparse Hfields. cbv zeta. subst uid.
  unfold Routes.PATCH_api_posts.
  rewrite Hs, Hp, Z.eqb_refl, Hparse, Hfields. cbn [negb].
  unfold Storage.updatePost. cbn [fst].
  exists (Storage.apply_updates reqBody now post).
  rewrite getPost_set_posts by reflexivity. rewrite Hp.
  repeat split.
  - intros H. simpl. now rewrite H.
  - intros H. simpl. now rewrite H.
  - intros id' Hne. now apply getPost_set_posts_other.
Qed.

Lemma edit_rewrites_only_the_sent_fields_witness :
  exists edited,
    Storage.getPost
      (fst (Routes.PATCH_api_posts Sample.forum (Some 1) 1
              (Storage.mkPostUpdates None (Some "Hello again")) 999)) 1
    = Some edited
    /\ title edited = "Hello"
    /\ updatedAt edited = 999.
Proof.
  destruct (edit_rewrites_only_the_sent_fields Sample.forum (Some 1) 1 1
              (Sample.post 1 "general" 1 "Hello" None 100)
              (Storage.mkPostUpdates None (Some "Hello again")) 999
              eq_refl eq_refl eq_refl eq_refl eq_refl)
    as [edited [Hget [Htitle [_ [Htime _]]]]].
  exists edited. split; [exact Hget |]. split; [| exact Htime].
  exact (Htitle eq_refl).
Defined.

(** X8.  The status route looks at the caller's role only.  For any other
    role than developer and owner it answers 403; for those two it stores
    whatever non-empty status text is sent, on a post of any section and
    in any deletion state, touching nothing but the status; and when no
    post has the id it still answers 200, with the database unchanged. *)
Theorem status_route_checks_the_role_only (db : DB) (session : option Z)
    (uid : Z) (user : User) (postId : Z) (s : string) :
  Routes.session_user session = Some uid ->
  Storage.getUser db uid = Some user ->
  Js.nonempty s = true ->
  let out := Posting.POST_api_posts_status db session postId (Some s) in
  (role user <> "developer" -> role user <> "owner" ->
   out = (db, Routes.say 403 "Only developers can update bug report status"))
  /\ (role user = "developer" \/ role user = "owner" ->
      snd out = Routes.say 200 "Post status updated successfully"
      /\ (forall post, Storage.getPost db postId = Some post ->
            Storage.getPost (fst out) postId
            = Some (Posting.set_status s post)
            /\ status (Posting.set_status s post) = Some s
            /\ (title (Posting.set_status s post),
                content (Posting.set_status s post),
                deleted (Posting.set_status s post),
                deletedBy (Posting.set_status s post),
                updatedAt (Posting.set_status s post))
               = (title post, content post, deleted post, deletedBy post,
                  updatedAt post))
      /\ (Storage.getPost db postId = None -> fst out = db)
      /\ (forall id', id' <> postId ->
            Storage.getPost (fst out) id' = Storage.getPost db id')).
Proof.
  intros Hs Hu Hne. cbv zeta.
  unfold Posting.POST_api_posts_status. rewrite Hs, Hu, Hne. cbn [negb].
  split.
  - intros Hd Ho.
    apply String.eqb_neq in Hd. apply String.eqb_neq in Ho.
    now rewrite Hd, Ho.
  - intros Hrole.
    assert (Hok : negb (String.eqb (role user) "developer")
                  && negb (String.eqb (role user) "owner") = false).
    { destruct Hrole as [-> | ->]; reflexivity. }
    rewrite Hok. cbn [fst snd]. unfold Posting.updatePostStatus.
    split; [reflexivity |]. split; [| split].
    + intros post Hp. rewrite getPost_set_posts by reflexivity.
      rewrite Hp. now repeat split.
    + intros Hnone. unfold Storage.getPost in Hnone.
      rewrite (update_where_no_match _ _ _ Hnone).
      unfold Storage.set_posts. apply DB_eta.
    + intros id' Hne'. now apply getPost_set_posts_other.
Qed.

(** Developer Dana marks the general post 1 with a status of her own. *)
Lemma status_route_checks_the_role_only_witness :
  Storage.getPost
    (fst (Posting.POST_api_posts_status Sample.forum (Some 5) 1
            (Some "wontfix"))) 1
  = Some (Posting.set_status "wontfix"
            (Sample.post 1 "general" 1 "Hello" None 100)).
Proof.
  refine (proj1 (proj1 (proj2 (proj2
    (status_route_checks_the_role_only Sample.forum (Some 5) 5 Sample.dana 1
       "wontfix" eq_refl eq_refl eq_refl) (or_introl eq_refl)))
    (Sample.post 1 "general" 1 "Hello" None 100) eq_refl)).
Defined.

(** ** The profile listing *)

(** X9.  The profile listing of a user holds exactly the posts that user
    authored, in every section and deleted or not, newest first; it is
    computed from the session's id alone. *)
Theorem profile_lists_all_own_posts (db : DB) (uid : Z) :
  (forall p, In p (map pwa_post (Posting.getUserPosts db uid)) <->
             In p (posts db) /\ authorId p = uid)
  /\ StronglySorted newest_first (map pwa_post (Posting.getUserPosts db uid))
  /\ (forall session, Routes.session_user session = Some uid ->
        Posting.GET_api_user_posts db session
        = Routes.json (Posting.getUserPosts db uid)).
Proof.
  assert (Hmap : map pwa_post (Posting.getUserPosts db uid)
                 = Sql.orderBy_desc createdAt
                     (filter (fun p => Z.eqb (authorId p) uid) (posts db))).
  { unfold Posting.getUserPosts. rewrite map_map. apply map_id. }
  rewrite Hmap. split; [| split].
  - intros p. rewrite In_orderBy_desc, filter_In, Z.eqb_eq. tauto.
  - apply (orderBy_desc_sorted createdAt).
  - intros session Hs. unfold Posting.GET_api_user_posts. now rewrite Hs.
Qed.

Lemma profile_lists_all_own_posts_witness :
  In (Sample.post 2 "general" 2 "Spam" (Some 3) 200)
    (map pwa_post (Posting.getUserPosts Sample.forum 2)).
Proof.
  refine (proj2 (proj1 (profile_lists_all_own_posts Sample.forum 2) _) _).
  split; [simpl; auto | reflexivity].
Defined.

(** ** Searching a listing *)



Lemma lower_char_idempotent (c : ascii) :
  Js.lower_char (Js.lower_char c) = Js.lower_char c.
Proof.
  destruct c as [[] [] [] [] [] [] [] []]; reflexivity.
Qed.

Lemma toLowerCase_idempotent (s : string) :
  Js.toLowerCase (Js.toLowerCase s) = Js.toLowerCase s.
Proof.
  induction s as [| c s IH]; simpl; [reflexivity |].
  now rewrite lower_char_idempotent, IH.
Qed.




Lemma In_visiblePosts (user : User) (sec q : string)
    (l : list PostWithAuthor) (x : PostWithAuthor) :
  In x (Page.visiblePosts user sec q l) <->
  In x l /\ Page.keep_deleted user x = true
  /\ Page.keep_reports user sec x = true /\ Page.keep_search q x = true.
Proof.
  unfold Page.visiblePosts. rewrite !filter_In. tauto.
Qed.

(** X11.  Searching only narrows what the viewer is shown anyway: the
    listing for a query is the listing for the empty query put through the
    search filter, so it never holds a post that the deletion or report
    filter hides; and filtering a listing again changes nothing. *)
Theorem search_only_narrows_the_listing (user : User) (sec q : string)
    (l : list PostWithAuthor) :
  Page.visiblePosts user sec q l
  = filter (Page.keep_search q) (Page.visiblePosts user sec "" l)
  /\ incl (Page.visiblePosts user sec q l) (Page.visiblePosts user sec "" l)
  /\ incl (Page.visiblePosts user sec "" l) l
  /\ Page.visiblePosts user sec q (Page.visiblePosts user sec q l)
     = Page.visiblePosts user sec q l
  /\ (List.length (Page.visiblePosts user sec q l)
      <= List.length (Page.visiblePosts user sec "" l) <= List.length l)%nat.
Proof.
  assert (Hempty : Page.visiblePosts user sec "" l
                   = filter (Page.keep_reports user sec)
                       (filter (Page.keep_deleted user) l)).
  { unfold Page.visiblePosts. now apply filter_all. }
  assert (Hq : Page.visiblePosts user sec q l
               = filter (Page.keep_search q) (Page.visiblePosts user sec "" l)).
  { now rewrite Hempty. }
  split; [exact Hq |]. split; [| split; [| split]].
  - rewrite Hq. intros x Hx. now apply filter_In in Hx.
  - intros x Hx. now apply In_visiblePosts in Hx.
  - unfold Page.visiblePosts at 1.
    rewrite (filter_all (Page.keep_deleted user))
      by (intros x Hx; apply In_visiblePosts in Hx; tauto).
    rewrite (filter_all (Page.keep_reports user sec))
      by (intros x Hx; apply In_visiblePosts in Hx; tauto).
    apply filter_all. intros x Hx. apply In_visiblePosts in Hx. tauto.
  - split.
    + rewrite Hq. apply filter_length_le.
    + rewrite Hempty.
      etransitivity; [apply filter_length_le | apply filter_length_le].
Qed.

(** ** Creating a post *)

Lemma next_id_fresh {A : Type} (id : A -> Z) (rows : list A) (r : A) :
  In r rows -> id r < Sql.next_id id rows.
Proof.
  unfold Sql.next_id.
  induction rows as [| a rest IH]; cbn [In map fold_right].
  - contradiction.
  - intros [-> | H].
    + pose proof (Z.le_max_l (id r) (fold_right Z.max 0 (map id rest))).
      lia.
    + specialize (IH H).
      pose proof (Z.le_max_r (id a) (fold_right Z.max 0 (map id rest))).
      lia.
Qed.

Lemma find_app_none {A : Type} (f : A -> bool) (l l' : list A) :
  find f l = None -> find f (l ++ l') = find f l'.
Proof.
  induction l as [| a rest IH]; simpl; [reflexivity |].
  destruct (f a); [discriminate | exact IH].
Qed.

Lemma find_app_some {A : Type} (f : A -> bool) (l l' : list A) (x : A) :
  find f l = Some x -> find f (l ++ l') = Some x.
Proof.
  induction l as [| a rest IH]; simpl; [discriminate |].
  destruct (f a); [easy | exact IH].
Qed.

Lemma find_fresh_id {A : Type} (id : A -> Z) (rows : list A) :
  find (fun r => Z.eqb (id r) (Sql.next_id id rows)) rows = None.
Proof.
  destruct (find _ rows) as [r |] eqn:E; [| reflexivity].
  apply find_some in E. destruct E as [Hin Heq].
  apply Z.eqb_eq in Heq. pose proof (next_id_fresh id rows r Hin). lia.
Qed.

Lemma whereConditions_own (sec role_ : string) (id : Z) (p : Post) :
  section p = sec -> authorId p = id ->
  Storage.whereConditions sec role_ id p = true.
Proof.
  intros <- <-. unfold Storage.whereConditions.
  rewrite String.eqb_refl, Z.eqb_refl.
  repeat match goal with
  | |- context [if ?b then _ else _] => destruct b
  end; reflexivity.
Qed.

(** X12.  A created post belongs to the session's user, whatever author
    the request names; it is appended as a live post with a fresh id, the
    other posts and the users table (so the author's counters and badge
    too) stay as they are, and no section rule is consulted.  The author
    then finds it in the listing of its section, in the report sections as
    well, whenever the page lets the author enter that section. *)
Theorem created_post_belongs_to_the_session_user (db : DB)
    (session : option Z) (uid : Z) (viewer : User) (d : Posting.NewPost)
    (defaultStatus : option string) (now : Z) :
  Routes.session_user session = Some uid ->
  Storage.getUser db uid = Some viewer ->
  let out := Posting.POST_api_posts db session (Some d) defaultStatus now in
  exists post,
    snd out = Routes.json post
    /\ posts (fst out) = (posts db ++ [post])%list
    /\ users (fst out) = users db
    /\ authorId post = uid
    /\ (title post, content post, section post)
       = (Posting.new_title d, Posting.new_content d, Posting.new_section d)
    /\ deleted post = false
    /\ (forall p, In p (posts db) -> post_id p < post_id post)
    /\ (canAccessSection (role viewer) (Posting.new_section d) = true ->
        exists items,
          listContent (fst out) viewer (Posting.new_section d) ""
          = Page.PostList items
          /\ In post (map pwa_post items)).
Proof.
  intros Hs Hu. cbv zeta. unfold Posting.POST_api_posts. rewrite Hs.
  unfold Posting.createPost. cbn [fst snd].
  set (post := Posting.post_row (posts db) _ defaultStatus now).
  set (db' := Storage.set_posts db _).
  exists post. split; [reflexivity |].
  repeat split.
  - intros p Hin. now apply next_id_fresh.
  - intros Hcan. unfold listContent, Page.SectionPage. rewrite Hcan.
    eexists. split; [reflexivity |].
    apply in_map_iff. exists (Storage.join_author db' post).
    split; [reflexivity |].
    apply getUser_Some in Hu. destruct Hu as [Hid _].
    apply In_visiblePosts. split; [| split; [| split]].
    + apply In_getPosts. exists post. split; [reflexivity |]. split.
      * simpl. apply in_or_app. right. now left.
      * apply whereConditions_own; [reflexivity | simpl; now rewrite Hid].
    + reflexivity.
    + rewrite keep_reports_eq. simpl. rewrite Hid, Z.eqb_refl.
      apply orb_true_r.
    + reflexivity.
Qed.

(** Alice files a bug report that names Dana as its author; it is stored
    under Alice's id. *)
Lemma created_post_belongs_to_the_session_user_witness :
  exists post,
    snd (Posting.POST_api_posts Sample.forum (Some 1)
           (Some (Posting.mkNewPost "Glitch" "text" "bug-reports" 5))
           (Some "pending") 900)
    = Routes.json post
    /\ authorId post = 1.
Proof.
  destruct (created_post_belongs_to_the_session_user Sample.forum (Some 1) 1
              Sample.alice (Posting.mkNewPost "Glitch" "text" "bug-reports" 5)
              (Some "pending") 900 eq_refl eq_refl)
    as [post [H1 [_ [_ [H4 _]]]]].
  exists post. now split.
Defined.

(** A plain user's post into the dev-panel section is stored. *)
Example plain_user_posts_into_dev_panel :
  map section
    (posts (fst (Posting.POST_api_posts Sample.forum (Some 1)
                   (Some (Posting.mkNewPost "Hi devs" "text" "dev-panel" 1))
                   None 900)))
  = (map section (posts Sample.forum) ++ ["dev-panel"])%list.
Proof. reflexivity. Qed.

(** ** The counters of the home page *)

Lemma length_update_where {A : Type} (cond : A -> bool) (f : A -> A)
    (rows : list A) :
  List.length (Sql.update_where cond f rows) = List.length rows.
Proof. apply length_map. Qed.

(** X13.  The post counter counts rows, deleted or not: no edit, delete,
    revive or status request changes the counters, and a created post
    raises the post counter by one and leaves the member counter. *)
Theorem counters_count_deleted_posts_too (db : DB) (session : option Z)
    (postId : Z) (reqBody : Storage.PostUpdates) (now : Z)
    (status : option string) (d : Posting.NewPost)
    (defaultStatus : option string) :
  Posting.getCounters
    (fst (Routes.PATCH_api_posts db session postId reqBody now))
  = Posting.getCounters db
  /\ Posting.getCounters (fst (Routes.DELETE_api_posts db session postId))
     = Posting.getCounters db
  /\ Posting.getCounters (fst (Routes.POST_api_posts_revive db session postId))
     = Posting.getCounters db
  /\ Posting.getCounters
       (fst (Posting.POST_api_posts_status db session postId status))
     = Posting.getCounters db
  /\ (Routes.session_user session <> None ->
      Posting.getCounters
        (fst (Posting.POST_api_posts db session (Some d) defaultStatus now))
      = {| Posting.totalMembers :=
             Posting.totalMembers (Posting.getCounters db);
           Posting.totalPosts :=
             Posting.totalPosts (Posting.getCounters db) + 1 |}).
Proof.
  unfold Routes.PATCH_api_posts, Routes.DELETE_api_posts,
    Routes.POST_api_posts_revive, Posting.POST_api_posts_status,
    Posting.POST_api_posts, Posting.getCounters.
  destruct (Routes.session_user session) as [uid |];
    [| repeat split; intros H; now contradiction H].
  split; [| split; [| split; [| split]]].
  - destruct (Storage.getPost db postId) as [post |]; [| reflexivity].
    destruct (negb (Z.eqb (authorId post) uid)); [reflexivity |].
    destruct (Routes.updatePostSchema_parse reqBody) as [v |];
      [| reflexivity].
    destruct (Routes.no_fields v); [reflexivity |].
    unfold Storage.updatePost. cbn [fst posts users Storage.set_posts].
    now rewrite length_update_where.
  - destruct (Storage.getUser db uid) as [user |]; [| reflexivity].
    destruct (Js.lt _ _); [reflexivity |].
    destruct (Storage.getPost db postId); [| reflexivity].
    unfold Storage.deletePost. cbn [fst posts users Storage.set_posts].
    now rewrite length_update_where.
  - destruct (Storage.getUser db uid) as [user |]; [| reflexivity].
    destruct (Js.lt _ _); [reflexivity |].
    destruct (Storage.getPost db postId); [| reflexivity].
    unfold Storage.revivePost. cbn [fst posts users Storage.set_posts].
    now rewrite length_update_where.
  - destruct (Storage.getUser db uid) as [user |]; [| reflexivity].
    destruct (_ && _); [reflexivity |].
    destruct status as [s |]; [| reflexivity].
    destruct (negb (Js.nonempty s)); [reflexivity |].
    unfold Posting.updatePostStatus. cbn [fst posts users Storage.set_posts].
    now rewrite length_update_where.
  - intros _. unfold Posting.createPost.
    cbn [fst posts users Storage.set_posts Posting.totalMembers
         Posting.totalPosts].
    rewrite length_app. simpl. f_equal. lia.
Qed.

Lemma counters_count_deleted_posts_too_witness :
  Posting.getCounters
    (fst (Posting.POST_api_posts Sample.forum (Some 1)
            (Some (Posting.mkNewPost "Glitch" "text" "bug-reports" 1))
            None 900))
  = {| Posting.totalMembers := 7; Posting.totalPosts := 7 |}.
Proof.
  refine (proj2 (proj2 (proj2 (proj2
    (counters_count_deleted_posts_too Sample.forum (Some 1) 1
       (Storage.mkPostUpdates None None) 900 None
       (Posting.mkNewPost "Glitch" "text" "bug-reports" 1) None)))) _).
  discriminate.
Defined.

(** ** Who may handle appeals and punishments *)

Lemma staff_by_role (u : User) (r : Role) :
  role u = role_name r ->
  (Routes.not_appeal_staff (Some u) = false <->
   r = R_moderator \/ r = R_admin \/ r = R_owner).
Proof.
  intros Hr. unfold Routes.not_appeal_staff. rewrite Hr.
  destruct r; simpl; split; intros H; try discriminate; auto;
    destruct H as [H | [H | H]]; discriminate.
Qed.

(** X14.  The appeal and punishment routes do not compare ranks: they
    admit the moderator, admin and owner roles by name.  For the six roles
    that is every rank from moderator up except the developer, who has the
    admin's rank and is answered 403 by all four routes. *)
Theorem appeal_staff_is_named_not_ranked (m : Sql.NullComparison)
    (st : Store) (session : option Z) (uid : Z) (user : User) (r : Role)
    (id : Z) :
  Routes.session_user session = Some uid ->
  Storage.getUser (core st) uid = Some user ->
  role user = role_name r ->
  let staff := r = R_moderator \/ r = R_admin \/ r = R_owner in
  (staff <-> rank R_moderator <= rank r /\ r <> R_developer)
  /\ (code (Routes.GET_api_appeals m (core st) session) = 200 <-> staff)
  /\ (code (snd (Routes.POST_api_appeals_approve (core st) session id)) = 200
      <-> staff)
  /\ (code (snd (Routes.POST_api_appeals_reject (core st) session id)) = 200
      <-> staff)
  /\ (code (snd (Moderation.DELETE_api_punishments st session id)) = 200
      <-> staff)
  /\ (~ staff ->
      Moderation.DELETE_api_punishments st session id
      = (st, Routes.say 403 "Not authorized")).
Proof.
  intros Hs Hu Hr. cbv zeta.
  pose proof (staff_by_role user r Hr) as Hstaff.
  unfold Routes.GET_api_appeals, Routes.POST_api_appeals_approve,
    Routes.POST_api_appeals_reject, Moderation.DELETE_api_punishments.
  rewrite Hs, Hu.
  split.
  - destruct r; vm_compute; split; intros H;
      try (destruct H as [H | [H | H]]; discriminate);
      try (split; [discriminate | discriminate]);
      try tauto; destruct H as [H1 H2]; try (now contradiction H2);
      now contradiction H1.
  - destruct (Routes.not_appeal_staff (Some user)) eqn:E; simpl.
    + assert (Hno : ~ (r = R_moderator \/ r = R_admin \/ r = R_owner)).
      { intros H. apply Hstaff in H. discriminate. }
      repeat split; intros H; try discriminate; try contradiction;
        reflexivity.
    + assert (Hyes : r = R_moderator \/ r = R_admin \/ r = R_owner)
        by now apply Hstaff.
      repeat split; intros H; try assumption; try reflexivity;
        contradiction.
Qed.

(** Admin Adam lists the appeals; developer Dana cannot. *)
Lemma appeal_staff_is_named_not_ranked_witness :
  code (Routes.GET_api_appeals Sql.IsNull Sample.forum (Some 4)) = 200
  /\ Moderation.DELETE_api_punishments Scenario.store (Some 5) 11
     = (Scenario.store, Routes.say 403 "Not authorized").
Proof.
  split.
  - refine (proj2 (proj1 (proj2
      (appeal_staff_is_named_not_ranked Sql.IsNull Scenario.store (Some 4) 4
         Sample.adam R_admin 0 eq_refl eq_refl eq_refl))) _).
    right. now left.
  - refine (proj2 (proj2 (proj2 (proj2 (proj2
      (appeal_staff_is_named_not_ranked Sql.IsNull Scenario.store (Some 5) 5
         Sample.dana R_developer 11 eq_refl eq_refl eq_refl))))) _).
    intros [H | [H | H]]; discriminate.
Defined.

(** X15.  The handler files an appeal for whoever is signed in, without
    looking at the caller's role or at the punishment named, and files it
    under the session's user, whatever user the request names: the appeal
    is appended with a fresh id in the Pending state, nothing else is
    touched, and under the is-null reading of the listing query it is then
    among the listed appeals. *)
Theorem filed_appeal_is_pending_and_the_filers (db : DB)
    (session : option Z) (uid : Z) (d : Storage.NewAppeal) (now : Z) :
  Routes.session_user session = Some uid ->
  let out := Routes.POST_api_appeals db session (Some d) now in
  exists a,
    snd out = Routes.json a
    /\ appeals (fst out) = (appeals db ++ [a])%list
    /\ users (fst out) = users db /\ posts (fst out) = posts db
    /\ appeal_userId a = uid
    /\ (punishmentId a, reason a)
       = (Storage.new_punishmentId d, Storage.new_reason d)
    /\ decision a = Pending
    /\ (forall b, In b (appeals db) -> appeal_id b < appeal_id a)
    /\ In a (Storage.getAppeals Sql.IsNull (fst out)).
Proof.
  intros Hs. cbv zeta. unfold Routes.POST_api_appeals. rewrite Hs.
  unfold Storage.createAppeal. cbn [fst snd].
  set (a := Storage.appeal_row (appeals db) _ now).
  exists a. repeat split.
  - intros b Hb. now apply next_id_fresh.
  - apply getAppeals_is_null. split; [| reflexivity].
    simpl. apply in_or_app. right. now left.
Qed.

Lemma filed_appeal_is_pending_and_the_filers_witness :
  exists a,
    snd (Routes.POST_api_appeals Sample.forum (Some 2)
           (Some (Storage.mkNewAppeal 1 12 "Not me")) 900)
    = Routes.json a
    /\ appeal_userId a = 2 /\ decision a = Pending.
Proof.
  destruct (filed_appeal_is_pending_and_the_filers Sample.forum (Some 2) 2
              (Storage.mkNewAppeal 1 12 "Not me") 900 eq_refl)
    as [a [H1 [_ [_ [_ [H5 [_ [H7 _]]]]]]]].
  exists a. now repeat split.
Defined.

(** ** Announcements *)

Lemma StronglySorted_firstn {A : Type} (R : A -> A -> Prop) (n : nat)
    (l : list A) :
  StronglySorted R l -> StronglySorted R (firstn n l).
Proof.
  intros H. revert n. induction H as [| a l Hl IH Ha]; intros n.
  - rewrite firstn_nil. constructor.
  - destruct n as [| n]; simpl; [constructor |].
    constructor; [apply IH |].
    rewrite Forall_forall in *. intros x Hx.
    apply Ha. rewrite <- (firstn_skipn n l). apply in_or_app. now left.
Qed.

Lemma sorted_firstn_skipn {A : Type} (R : A -> A -> Prop) (n : nat)
    (l : list A) (a b : A) :
  StronglySorted R l ->
  In a (firstn n l) -> In b (skipn n l) -> R a b.
Proof.
  intros H. revert n. induction H as [| x l Hl IH Hx]; intros n Ha Hb.
  - rewrite firstn_nil in Ha. contradiction.
  - destruct n as [| n]; simpl in Ha, Hb; [contradiction |].
    destruct Ha as [<- | Ha].
    + rewrite Forall_forall in Hx. apply Hx.
      rewrite <- (firstn_skipn n l). apply in_or_app. now right.
    + now apply (IH n).
Qed.

(** X16.  The announcements shown are the ten newest: at most ten stored
    announcements, newest first, and every stored announcement that is not
    shown is no newer than any that is.  The route asks for no session. *)
Theorem announcements_shown_are_the_ten_newest (st : Store) :
  let shown := Moderation.getAnnouncements st in
  List.length shown = Nat.min 10 (List.length (announcements st))
  /\ StronglySorted (Sql.descending announcement_createdAt) shown
  /\ incl shown (announcements st)
  /\ (forall a b, In a shown -> In b (announcements st) -> ~ In b shown ->
        announcement_createdAt b <= announcement_createdAt a)
  /\ Moderation.GET_api_announcements st = Routes.json shown.
Proof.
  cbv zeta. unfold Moderation.getAnnouncements.
  set (sorted := Sql.orderBy_desc announcement_createdAt (announcements st)).
  assert (Hsorted : StronglySorted (Sql.descending announcement_createdAt)
                      sorted)
    by apply (orderBy_desc_sorted announcement_createdAt).
  split; [| split; [| split; [| split]]].
  - rewrite length_firstn. f_equal. symmetry.
    apply Permutation_length, orderBy_desc_perm.
  - now apply StronglySorted_firstn.
  - intros a Ha. apply (In_orderBy_desc announcement_createdAt).
    change (In a sorted).
    rewrite <- (firstn_skipn 10 sorted). apply in_or_app. now left.
  - intros a b Ha Hb Hnot.
    apply (In_orderBy_desc announcement_createdAt) in Hb.
    fold sorted in Hb. rewrite <- (firstn_skipn 10 sorted) in Hb.
    apply in_app_or in Hb. destruct Hb as [Hb | Hb]; [contradiction |].
    exact (sorted_firstn_skipn _ 10 sorted a b Hsorted Ha Hb).
  - reflexivity.
Qed.

Example twelve_announcements_ten_shown :
  map announcement_id (Moderation.getAnnouncements Scenario.store)
  = [12; 11; 10; 9; 8; 7; 6; 5; 4; 3].
Proof. reflexivity. Qed.

Lemma announcer_by_role (u : User) (r : Role) :
  role u = role_name r ->
  (Moderation.not_announcer (Some u) = false <->
   r = R_developer \/ r = R_owner).
Proof.
  intros Hr. unfold Moderation.not_announcer. rewrite Hr.
  destruct r; simpl; split; intros H; try discriminate; auto;
    destruct H as [H | H]; discriminate.
Qed.

(** X17.  Announcements are written and removed by the developer and
    owner roles only, the two roles that hold the bug-report capability;
    the admin, of the developer's rank, is answered 403.  A removal
    deletes the rows with the given id and nothing else, and a new
    announcement is stored under the session's user. *)
Theorem announcements_belong_to_developer_and_owner (st : Store)
    (session : option Z) (uid : Z) (user : User) (r : Role) (id : Z)
    (d : Moderation.NewAnnouncement) (now : Z) :
  Routes.session_user session = Some uid ->
  Storage.getUser (core st) uid = Some user ->
  role user = role_name r ->
  let may := r = R_developer \/ r = R_owner in
  let removed := Moderation.DELETE_api_announcements st session id in
  let added := Moderation.POST_api_announcements st session (Some d) now in
  (may <-> canTagBugReport (role user) = true)
  /\ (code (snd removed) = 200 <-> may)
  /\ (code (snd added) = 200 <-> may)
  /\ (~ may -> fst removed = st /\ fst added = st)
  /\ (may ->
      (forall a, In a (announcements (fst removed)) <->
                 In a (announcements st) /\ announcement_id a <> id)
      /\ core (fst removed) = core st
      /\ exists a,
           announcements (fst added) = (announcements st ++ [a])%list
           /\ snd added = Routes.json a
           /\ announcement_authorId a = uid
           /\ (forall b, In b (announcements st) ->
                 announcement_id b < announcement_id a)).
Proof.
  intros Hs Hu Hr. cbv zeta.
  pose proof (announcer_by_role user r Hr) as Hmay.
  unfold Moderation.DELETE_api_announcements,
    Moderation.POST_api_announcements.
  rewrite Hs, Hu.
  split.
  - rewrite Hr. destruct r; cbn; split; intros H; try discriminate; auto;
      destruct H as [H | H]; discriminate.
  - destruct (Moderation.not_announcer (Some user)) eqn:E; cbn [fst snd code].
    + assert (Hno : ~ (r = R_developer \/ r = R_owner)).
      { intros H. apply Hmay in H. discriminate. }
      split; [split; [intros H; discriminate | intros H; contradiction] |].
      split; [split; [intros H; discriminate | intros H; contradiction] |].
      split; [intros _; now split |].
      intros H. contradiction.
    + assert (Hyes : r = R_developer \/ r = R_owner) by now apply Hmay.
      unfold Moderation.createAnnouncement. cbn [fst snd code].
      split; [now split |]. split; [now split |].
      split; [intros H; contradiction |].
      intros _. split; [| split].
      * intros a. unfold Moderation.deleteAnnouncement. simpl.
        rewrite filter_In, negb_true_iff, Z.eqb_neq. tauto.
      * reflexivity.
      * eexists. repeat split.
        intros b Hb. simpl. now apply next_id_fresh.
Qed.

Lemma announcements_belong_to_developer_and_owner_witness :
  code (snd (Moderation.DELETE_api_announcements Scenario.store (Some 5) 3))
  = 200.
Proof.
  refine (proj2 (proj1 (proj2
    (announcements_belong_to_developer_and_owner Scenario.store (Some 5) 5
       Sample.dana R_developer 3
       (Moderation.mkNewAnnouncement 0 "t" "c" None) 0
       eq_refl eq_refl eq_refl))) _).
  now left.
Defined.

(** ** Revoking a punishment *)

(** X18.  A revocation by a moderator, admin or owner removes the
    punishments with the given id and no other: every user's punishment
    list loses exactly those, the storage method writes to no other table,
    revoking again changes nothing, and an id that no punishment has is
    answered 200 all the same. *)
Theorem revoked_punishment_is_gone (st : Store) (session : option Z)
    (uid : Z) (user : User) (id : Z) :
  Routes.session_user session = Some uid ->
  Storage.getUser (core st) uid = Some user ->
  role user = "owner" \/ role user = "admin" \/ role user = "moderator" ->
  let out := Moderation.DELETE_api_punishments st session id in
  snd out = Routes.say 200 "Punishment revoked"
  /\ (forall u p,
        In p (Moderation.getUserPunishments (fst out) u) <->
        In p (Moderation.getUserPunishments st u) /\ punishment_id p <> id)
  /\ core (fst out) = core st
  /\ Moderation.revokePunishment (fst out) id = fst out
  /\ ((forall p, In p (punishments st) -> punishment_id p <> id) ->
      punishments (fst out) = punishments st).
Proof.
  intros Hs Hu Hrole. cbv zeta.
  unfold Moderation.DELETE_api_punishments. rewrite Hs, Hu.
  assert (Hstaff : Routes.not_appeal_staff (Some user) = false).
  { apply appeal_staff_roles. exists user. tauto. }
  rewrite Hstaff. cbn [fst snd].
  split; [reflexivity |]. split; [| split; [| split]].
  - intros u p. unfold Moderation.getUserPunishments,
      Moderation.revokePunishment. simpl.
    rewrite !filter_In, negb_true_iff, Z.eqb_neq. tauto.
  - reflexivity.
  - unfold Moderation.revokePunishment, Moderation.set_punishments. simpl.
    f_equal. apply filter_all. intros p Hp.
    now apply filter_In in Hp.
  - intros Hnone. simpl. apply filter_all. intros p Hp.
    apply negb_true_iff, Z.eqb_neq. now apply Hnone.
Qed.

(** Mira revokes punishment 11: Alice keeps only her punishment 13. *)
Lemma revoked_punishment_is_gone_witness :
  In (mkPunishment 13 1 "Spam again" 3 7)
    (Moderation.getUserPunishments
       (fst (Moderation.DELETE_api_punishments Scenario.store (Some 3) 11)) 1)
  /\ Moderation.revokePunishment
       (fst (Moderation.DELETE_api_punishments Scenario.store (Some 3) 11)) 11
     = fst (Moderation.DELETE_api_punishments Scenario.store (Some 3) 11).
Proof.
  pose proof (revoked_punishment_is_gone Scenario.store (Some 3) 3
                Sample.mira 11 eq_refl eq_refl
                (or_intror (or_intror eq_refl))) as H.
  cbv zeta in H. destruct H as [_ [Hlist [_ [Hagain _]]]].
  split; [| exact Hagain].
  apply Hlist. split; [simpl; auto | discriminate].
Defined.

(** ** Direct messages *)

Lemma nonempty_false (s : string) : Js.nonempty s = false <-> s = "".
Proof. destruct s; simpl; split; intros H; try discriminate; auto. Qed.

Lemma nonempty_length (s : string) :
  Js.nonempty s = true <-> 1 <= Z.of_nat (String.length s).
Proof.
  destruct s; simpl; split; intros H; try discriminate; try lia; auto.
Qed.

(** X19.  A message is stored exactly when the request is valid: the
    sender is signed in, recipient name and content are non-empty, the
    content has at most 2000 characters, the name is that of a stored user
    and that user is not the sender.  Every other request is refused and
    leaves the store as it was. *)
Theorem message_is_stored_only_when_valid (st : Store) (session : option Z)
    (name text : string) (now : Z) :
  let out :=
    Messaging.POST_api_messages st session (Some name) (Some text) now in
  (code (snd out) = 200 <->
   exists uid to,
     Routes.session_user session = Some uid
     /\ name <> ""
     /\ 1 <= Z.of_nat (String.length text) <= 2000
     /\ Accounts.getUserByUsername (core st) name = Some to
     /\ user_id to <> uid)
  /\ (code (snd out) <> 200 -> fst out = st).
Proof.
  cbv zeta. unfold Messaging.POST_api_messages.
  destruct (Routes.session_user session) as [uid |] eqn:Hs.
  2: { simpl. split; [split |]; [discriminate | | reflexivity].
       intros (u & t & H & _). discriminate. }
  destruct (Js.nonempty name) eqn:Hname; cbn [negb orb].
  2: { simpl. split; [split |]; [discriminate | | reflexivity].
       intros (u & t & _ & H & _). apply nonempty_false in Hname.
       contradiction. }
  destruct (Js.nonempty text) eqn:Htext; cbn [negb].
  2: { simpl. split; [split |]; [discriminate | | reflexivity].
       intros (u & t & _ & _ & H & _). apply nonempty_false in Htext.
       subst text. simpl in H. lia. }
  apply nonempty_length in Htext.
  replace (Z.eqb (Z.of_nat (String.length text)) 0) with false
    by (symmetry; apply Z.eqb_neq; lia).
  cbn [orb].
  destruct (Z.ltb_spec 2000 (Z.of_nat (String.length text))) as [Hlong | Hok].
  { simpl. split; [split |]; [discriminate | | reflexivity].
    intros (u & t & _ & _ & H & _). lia. }
  destruct (Accounts.getUserByUsername (core st) name) as [to |] eqn:Hto.
  2: { simpl. split; [split |]; [discriminate | | reflexivity].
       intros (u & t & _ & _ & _ & H & _). discriminate. }
  destruct (Z.eqb_spec (user_id to) uid) as [Hself | Hother].
  { simpl. split; [split |]; [discriminate | | reflexivity].
    intros (u & t & Hu & _ & _ & Ht & Hne).
    inversion Hu. inversion Ht. subst. contradiction. }
  unfold Messaging.createMessage. cbn [fst snd code Routes.json].
  split; [split |].
  - intros _. exists uid, to. repeat split; auto; try lia.
    intros ->. discriminate.
  - reflexivity.
  - intros H. now contradiction H.
Qed.

(** Alice writes to herself: refused, nothing stored. *)
Lemma message_is_stored_only_when_valid_witness :
  fst (Messaging.POST_api_messages Scenario.store (Some 1) (Some "alice")
         (Some "note to self") 900)
  = Scenario.store.
Proof.
  refine (proj2
    (message_is_stored_only_when_valid Scenario.store (Some 1) "alice"
       "note to self" 900) _).
  vm_compute. discriminate.
Defined.

Lemma messages_of_getMessages (st : Store) (uid : Z) :
  map Messaging.mwu_message (Messaging.getMessages st uid)
  = Sql.orderBy_desc message_createdAt
      (filter (fun m => Z.eqb (recipientId m) uid) (messages st)).
Proof.
  unfold Messaging.getMessages. rewrite map_map. apply map_id.
Qed.

(** X20.  A user's message listing is an inbox: it holds exactly the
    stored messages addressed to that user, newest first, each with the
    sender's row; messages the user has sent are not in it. *)
Theorem message_listing_is_an_inbox (st : Store) (uid : Z) :
  (forall m, In m (map Messaging.mwu_message (Messaging.getMessages st uid))
             <-> In m (messages st) /\ recipientId m = uid)
  /\ StronglySorted (Sql.descending message_createdAt)
       (map Messaging.mwu_message (Messaging.getMessages st uid))
  /\ (forall x, In x (Messaging.getMessages st uid) ->
        Messaging.sender x
        = Storage.getUser (core st) (senderId (Messaging.mwu_message x))
        /\ Messaging.recipient x = Storage.getUser (core st) uid)
  /\ (forall m, In m (messages st) -> senderId m = uid ->
        recipientId m <> uid ->
        ~ In m (map Messaging.mwu_message (Messaging.getMessages st uid))).
Proof.
  rewrite messages_of_getMessages.
  assert (Hin : forall m,
            In m (Sql.orderBy_desc message_createdAt
                    (filter (fun m => Z.eqb (recipientId m) uid)
                       (messages st)))
            <-> In m (messages st) /\ recipientId m = uid).
  { intros m. rewrite In_orderBy_desc, filter_In, Z.eqb_eq. tauto. }
  split; [exact Hin |]. split; [| split].
  - apply (orderBy_desc_sorted message_createdAt).
  - intros x Hx. unfold Messaging.getMessages in Hx.
    apply in_map_iff in Hx. destruct Hx as [m [<- _]]. now split.
  - intros m _ _ Hne H. apply Hin in H. tauto.
Qed.

Lemma message_listing_is_an_inbox_witness :
  ~ In (mkDirectMessage 1 1 2 "Hi Hana" 600)
      (map Messaging.mwu_message (Messaging.getMessages Scenario.store 1)).
Proof.
  refine (proj2 (proj2 (proj2
    (message_listing_is_an_inbox Scenario.store 1)))
    (mkDirectMessage 1 1 2 "Hi Hana" 600) _ eq_refl _).
  - simpl. auto.
  - discriminate.
Defined.

(** X21.  A message that is accepted reaches its addressee and nobody
    else: it is stored with the session's user as sender, it appears in
    the addressee's inbox, the inbox of every other user, the sender's
    included, is what it was, and the users table (so the sender's message
    counter and badge) is untouched. *)
Theorem accepted_message_reaches_only_the_addressee (st : Store)
    (session : option Z) (uid : Z) (name text : string) (to : User)
    (now : Z) :
  Routes.session_user session = Some uid ->
  Js.nonempty name = true ->
  1 <= Z.of_nat (String.length text) <= 2000 ->
  Accounts.getUserByUsername (core st) name = Some to ->
  user_id to <> uid ->
  let out :=
    Messaging.POST_api_messages st session (Some name) (Some text) now in
  exists m,
    snd out = Routes.json m
    /\ (senderId m, recipientId m, message_content m)
       = (uid, user_id to, text)
    /\ In m (map Messaging.mwu_message
               (Messaging.getMessages (fst out) (user_id to)))
    /\ (forall other, other <> user_id to ->
          Messaging.getMessages (fst out) other
          = Messaging.getMessages st other)
    /\ core (fst out) = core st.
Proof.
  intros Hs Hname Hlen Hto Hne. cbv zeta.
  unfold Messaging.POST_api_messages. rewrite Hs, Hname.
  assert (Htext : Js.nonempty text = true) by (apply nonempty_length; lia).
  rewrite Htext. cbn [negb orb].
  replace (Z.eqb (Z.of_nat (String.length text)) 0) with false
    by (symmetry; apply Z.eqb_neq; lia).
  replace (Z.ltb 2000 (Z.of_nat (String.length text))) with false
    by (symmetry; apply Z.ltb_ge; lia).
  cbn [orb]. rewrite Hto.
  replace (Z.eqb (user_id to) uid) with false
    by (symmetry; now apply Z.eqb_neq).
  unfold Messaging.createMessage. cbn [fst snd].
  set (m := Messaging.message_row (messages st) uid (user_id to) text now).
  exists m. split; [reflexivity |]. split; [reflexivity |].
  split; [| split].
  - rewrite messages_of_getMessages, In_orderBy_desc, filter_In. simpl.
    split; [apply in_or_app; right; now left | apply Z.eqb_refl].
  - intros other Hother. unfold Messaging.getMessages. simpl.
    rewrite filter_app. simpl.
    replace (Z.eqb (user_id to) other) with false
      by (symmetry; apply Z.eqb_neq; congruence).
    now rewrite app_nil_r.
  - reflexivity.
Qed.

(** Alice writes to Hana: the message is in Hana's inbox. *)
Lemma accepted_message_reaches_only_the_addressee_witness :
  exists m,
    snd (Messaging.POST_api_messages Scenario.store (Some 1) (Some "hana")
           (Some "Lunch?") 900)
    = Routes.json m
    /\ (senderId m, recipientId m, message_content m) = (1, 2, "Lunch?").
Proof.
  destruct (accepted_message_reaches_only_the_addressee Scenario.store
              (Some 1) 1 "hana" "Lunch?" Sample.hana 900
              eq_refl eq_refl) as [m [H1 [H2 _]]].
  - simpl. lia.
  - reflexivity.
  - discriminate.
  - exists m. now split.
Defined.

(** ** Accounts *)

Lemma NoDup_snoc {A : Type} (l : list A) (x : A) :
  NoDup l -> ~ In x l -> NoDup (l ++ [x]).
Proof.
  intros Hl Hx. apply (Permutation_NoDup (l := x :: l)).
  - apply Permutation_cons_append.
  - now constructor.
Qed.

Lemma username_not_taken (db : DB) (name : string) :
  Accounts.getUserByUsername db name = None ->
  ~ In name (map username (users db)).
Proof.
  unfold Accounts.getUserByUsername. intros Hnone Hin.
  apply in_map_iff in Hin. destruct Hin as [u [Hu Hin]].
  pose proof (find_none _ _ Hnone u Hin) as H. simpl in H.
  rewrite Hu, String.eqb_refl in H. discriminate.
Qed.

Lemma next_id_not_used {A : Type} (id : A -> Z) (rows : list A) :
  ~ In (Sql.next_id id rows) (map id rows).
Proof.
  intros Hin. apply in_map_iff in Hin. destruct Hin as [r [Hr Hin]].
  pose proof (next_id_fresh id rows r Hin). lia.
Qed.

Lemma next_id_positive {A : Type} (id : A -> Z) (rows : list A) :
  1 <= Sql.next_id id rows.
Proof.
  unfold Sql.next_id.
  assert (0 <= fold_right Z.max 0 (map id rows)); [| lia].
  induction rows as [| a rest IH]; cbn [map fold_right]; [lia |].
  pose proof (Z.le_max_r (id a) (fold_right Z.max 0 (map id rest))). lia.
Qed.

(** X22.  Whatever a signup request holds, it keeps the accounts sound:
    usernames that were pairwise different stay so, ids too, no stored
    account is changed or removed, and an account that the request adds
    has the role user. *)
Theorem signup_keeps_accounts_sound (db : DB) (session : option Z)
    (validatedData : option Accounts.Credentials)
    (discordUserId : option string) (isInGuild : bool)
    (hashedPassword newUserId : string) :
  let db' :=
    fst (fst (Accounts.POST_api_signup db session validatedData
                discordUserId isInGuild hashedPassword newUserId)) in
  (NoDup (map username (users db)) -> NoDup (map username (users db')))
  /\ (NoDup (map user_id (users db)) -> NoDup (map user_id (users db')))
  /\ (forall u, In u (users db') -> In u (users db) \/ role u = "user")
  /\ (forall u, In u (users db) -> In u (users db'))
  /\ posts db' = posts db /\ appeals db' = appeals db.
Proof.
  cbv zeta. unfold Accounts.POST_api_signup.
  destruct validatedData as [data |]; [| simpl; tauto].
  destruct (Accounts.getUserByUsername db (Accounts.cred_username data))
    eqn:Hname; [simpl; tauto |].
  destruct (Accounts.given discordUserId && negb isInGuild);
    [simpl; tauto |].
  unfold Accounts.createUser. cbn [fst snd users posts appeals
                                   Storage.set_users].
  split; [| split; [| split; [| split]]].
  - intros H. rewrite map_app. apply NoDup_snoc; [exact H |].
    now apply username_not_taken.
  - intros H. rewrite map_app. apply NoDup_snoc; [exact H |].
    apply next_id_not_used.
  - intros u Hu. apply in_app_or in Hu.
    destruct Hu as [Hu | [<- | []]]; [now left | now right].
  - intros u Hu. apply in_or_app. now left.
  - now split.
Qed.

Lemma signup_keeps_accounts_sound_witness :
  NoDup
    (map username
       (users
          (fst (fst (Accounts.POST_api_signup Sample.forum None
                       (Some (Accounts.mkCredentials "nina" "secret")) None
                       false "$2b$10$nina" "1234567890123456789"))))).
Proof.
  refine (proj1
    (signup_keeps_accounts_sound Sample.forum None
       (Some (Accounts.mkCredentials "nina" "secret")) None false
       "$2b$10$nina" "1234567890123456789") _).
  simpl. repeat constructor; simpl; intuition discriminate.
Defined.

(** X23.  Sign up, then sign in.  When the username is free and the guild
    check, if one was asked for, succeeded, the signup stores one new
    account with the role user and the hashed password and signs the
    caller in as that account; the profile route then answers with that
    account, and a login with the same name and password is accepted, as
    long as the password check accepts the password against its hash. *)
Theorem signed_up_account_can_sign_in (compare : string -> string -> bool)
    (db : DB) (session : option Z) (data : Accounts.Credentials)
    (discordUserId : option string) (isInGuild : bool)
    (hashedPassword newUserId : string) :
  Accounts.getUserByUsername db (Accounts.cred_username data) = None ->
  (Accounts.given discordUserId = true -> isInGuild = true) ->
  compare (Accounts.cred_password data) hashedPassword = true ->
  let out :=
    Accounts.POST_api_signup db session (Some data) discordUserId isInGuild
      hashedPassword newUserId in
  exists user,
    out = (Storage.set_users db (users db ++ [user]), Some (user_id user),
           Routes.json (Accounts.identity_of user))
    /\ (username user, password user, userId user, role user)
       = (Accounts.cred_username data, hashedPassword, newUserId, "user")
    /\ Accounts.GET_api_user (fst (fst out)) (snd (fst out))
       = Routes.json (Accounts.without_password user)
    /\ (forall session',
          Accounts.POST_api_login compare (fst (fst out)) session'
            (Accounts.cred_username data) (Accounts.cred_password data)
          = (Some (user_id user), Routes.json (Accounts.identity_of user))).
Proof.
  intros Hfree Hguild Hcompare. cbv zeta.
  unfold Accounts.POST_api_signup. rewrite Hfree.
  assert (Hpass : Accounts.given discordUserId && negb isInGuild = false).
  { destruct (Accounts.given discordUserId); [| reflexivity].
    now rewrite Hguild. }
  rewrite Hpass. unfold Accounts.createUser. cbn [fst snd].
  set (user := Accounts.user_row (users db) _ hashedPassword newUserId "user").
  exists user. split; [reflexivity |]. split; [reflexivity |]. split.
  - unfold Accounts.GET_api_user, Routes.session_user, Js.truthy.
    pose proof (next_id_positive user_id (users db)) as Hpos.
    replace (Z.eqb (user_id user) 0) with false
      by (symmetry; apply Z.eqb_neq; simpl; lia).
    cbn [negb]. unfold Storage.getUser. cbn [users Storage.set_users].
    rewrite find_app_none by apply (find_fresh_id user_id).
    simpl. now rewrite Z.eqb_refl.
  - intros session'. unfold Accounts.POST_api_login,
      Accounts.getUserByUsername. cbn [users Storage.set_users].
    rewrite find_app_none by exact Hfree.
    simpl. rewrite String.eqb_refl. simpl. now rewrite Hcompare.
Qed.

Lemma signed_up_account_can_sign_in_witness :
  exists user,
    Accounts.POST_api_signup Sample.forum None
      (Some (Accounts.mkCredentials "nina" "secret")) None false
      "hashed:secret" "1234567890123456789"
    = (Storage.set_users Sample.forum (users Sample.forum ++ [user]),
       Some (user_id user), Routes.json (Accounts.identity_of user))
    /\ (username user, password user, userId user, role user)
       = ("nina", "hashed:secret", "1234567890123456789", "user").
Proof.
  destruct (signed_up_account_can_sign_in
              (fun pass hash => String.eqb hash ("hashed:" ++ pass))
              Sample.forum None (Accounts.mkCredentials "nina" "secret")
              None false "hashed:secret" "1234567890123456789"
              eq_refl) as [user [H1 [H2 _]]].
  - discriminate.
  - reflexivity.
  - exists user. now split.
Defined.



(** ** Profile pictures *)

Lemma getUser_updateUser (db : DB) (uid : Z) (u : Accounts.ProfileUpdates) :
  Storage.getUser (fst (Accounts.updateUser db uid u)) uid
  = option_map (Accounts.apply_profile u) (Storage.getUser db uid)
  /\ snd (Accounts.updateUser db uid u)
     = option_map (Accounts.apply_profile u) (Storage.getUser db uid)
  /\ (forall id', id' <> uid ->
        Storage.getUser (fst (Accounts.updateUser db uid u)) id'
        = Storage.getUser db id').
Proof.
  unfold Accounts.updateUser, Storage.getUser. cbn [fst snd users
                                                    Storage.set_users].
  split; [| split].
  - now apply find_update_where.
  - apply hd_returning.
  - intros id' Hne. apply find_update_where_other; [reflexivity |].
    intros r Hr. apply Z.eqb_eq in Hr. rewrite Hr. now apply Z.eqb_neq.
Qed.

(** X25.  The avatar route changes one picture and nothing else.  When
    the caller is signed in, has an account and sends a non-empty string,
    the answer is the caller's account with the new avatar and without
    the password; the caller's name, password, role, banner, counters and
    badge, every other account, the posts and the appeals are as before.
    An empty or missing avatar is answered 400. *)
Theorem avatar_route_changes_one_picture (db : DB) (session : option Z)
    (uid : Z) (user : User) (pic : string) :
  Routes.session_user session = Some uid ->
  Storage.getUser db uid = Some user ->
  let out := Accounts.POST_api_user_avatar db session (Some pic) in
  (Js.nonempty pic = false ->
   out = (db, Routes.say 400 "Invalid avatar data"))
  /\ Accounts.POST_api_user_avatar db session None
     = (db, Routes.say 400 "Invalid avatar data")
  /\ (Js.nonempty pic = true ->
      exists updated,
        Storage.getUser (fst out) uid = Some updated
        /\ snd out = Routes.json (Accounts.without_password updated)
        /\ avatar updated = Some pic
        /\ (user_id updated, username updated, userId updated,
            password updated, role updated, banner updated,
            postCount updated, messageCount updated, badge updated)
           = (user_id user, username user, userId user, password user,
              role user, banner user, postCount user, messageCount user,
              badge user)
        /\ (forall id', id' <> uid ->
              Storage.getUser (fst out) id' = Storage.getUser db id')
        /\ posts (fst out) = posts db /\ appeals (fst out) = appeals db).
Proof.
  intros Hs Hu. cbv zeta. unfold Accounts.POST_api_user_avatar. rewrite Hs.
  split; [| split].
  - intros H. now rewrite H.
  - reflexivity.
  - intros H. rewrite H. cbn [negb].
    destruct (getUser_updateUser db uid
                (Accounts.mkProfileUpdates (Some (Some pic)) None))
      as [Hget [Hret Hother]].
    rewrite Hu in Hget, Hret. cbn [option_map] in Hget, Hret.
    destruct (Accounts.updateUser db uid _) as [db' returned] eqn:E.
    cbn [fst snd] in *. subst returned.
    exists (Accounts.apply_profile
              (Accounts.mkProfileUpdates (Some (Some pic)) None) user).
    split; [exact Hget |]. split; [reflexivity |].
    split; [reflexivity |]. split; [reflexivity |].
    split; [exact Hother |].
    unfold Accounts.updateUser in E. inversion E. now split.
Qed.

Lemma avatar_route_changes_one_picture_witness :
  exists updated,
    Storage.getUser
      (fst (Accounts.POST_api_user_avatar Sample.forum (Some 1)
              (Some "data:image/png;base64,AAAA"))) 1
    = Some updated
    /\ avatar updated = Some "data:image/png;base64,AAAA"
    /\ role updated = "user".
Proof.
  destruct (proj2 (proj2
    (avatar_route_changes_one_picture Sample.forum (Some 1) 1 Sample.alice
       "data:image/png;base64,AAAA" eq_refl eq_refl)) eq_refl)
    as [updated [H1 [_ [H3 [H4 _]]]]].
  exists updated. split; [exact H1 |]. split; [exact H3 |].
  now inversion H4.
Defined.

(** ** Sections offered to a user *)

(** X26.  Entry is refused for one section only: [canAccessSection] is
    false exactly for dev-panel and a role other than developer and owner.
    So the home page offers every user the nine other sections, the three
    report sections included, and offers dev-panel, like the sidebar's
    developer group, to those who may tag bug reports. *)
Theorem only_dev_panel_is_closed (role_ sec : string) (user : User) :
  (canAccessSection role_ sec = false <->
   sec = "dev-panel" /\ role_ <> "developer" /\ role_ <> "owner")
  /\ map Home.key (Home.accessibleSections user)
     = ([ "general"; "off-topic"; "code-share"; "support"; "bot"; "website";
          "player-reports"; "bug-reports"; "support-tickets" ]
        ++ (if canTagBugReport (role user) then ["dev-panel"] else []))%list
  /\ Home.accessibleDevSections user
     = (if canTagBugReport (role user) then ["dev-panel"] else []).
Proof.
  split; [| split].
  - unfold canAccessSection.
    destruct (String.eqb_spec sec "dev-panel") as [-> | Hsec].
    + rewrite orb_false_iff, !String.eqb_neq. tauto.
    + split; [discriminate | tauto].
  - unfold Home.accessibleSections, canTagBugReport. cbn.
    now destruct (String.eqb (role user) "developer" || _).
  - unfold Home.accessibleDevSections, canTagBugReport. cbn.
    now destruct (String.eqb (role user) "developer" || _).
Qed.

Lemma only_dev_panel_is_closed_witness :
  canAccessSection "admin" "dev-panel" = false.
Proof.
  refine (proj2 (proj1
    (only_dev_panel_is_closed "admin" "dev-panel" Sample.adam)) _).
  repeat split; discriminate.
Defined.

(** ** Refreshing a badge *)

(** X27.  Refreshing a user's badge writes that user's badge and nothing
    else: afterwards the stored badge is the tier of the user's counters,
    every other field of the account, every other account, the posts and
    the appeals are as before; for an id without account nothing
    happens. *)
Theorem badge_refresh_writes_only_the_badge (db : DB) (uid : Z) :
  let db' := Storage.updateUserBadge db uid in
  map (fun u => (Accounts.identity_of u, password u, avatar u, banner u,
                 postCount u, messageCount u)) (users db')
  = map (fun u => (Accounts.identity_of u, password u, avatar u, banner u,
                   postCount u, messageCount u)) (users db)
  /\ posts db' = posts db /\ appeals db' = appeals db
  /\ (forall id', id' <> uid ->
        Storage.getUser db' id' = Storage.getUser db id')
  /\ (forall user, Storage.getUser db uid = Some user ->
        option_map badge (Storage.getUser db' uid)
        = Some (Some (Storage.badge_of (postCount user) (messageCount user))))
  /\ (Storage.getUser db uid = None -> db' = db).
Proof.
  cbv zeta.
  split; [| split; [| split; [| split; [| split]]]].
  - unfold Storage.updateUserBadge.
    destruct (Storage.getUser db uid) as [user |]; [| reflexivity].
    destruct (negb _); [| reflexivity].
    cbn [users Storage.set_users]. now apply map_update_where.
  - unfold Storage.updateUserBadge.
    destruct (Storage.getUser db uid) as [user |]; [| reflexivity].
    now destruct (negb _).
  - unfold Storage.updateUserBadge.
    destruct (Storage.getUser db uid) as [user |]; [| reflexivity].
    now destruct (negb _).
  - intros id' Hne. unfold Storage.updateUserBadge.
    destruct (Storage.getUser db uid) as [user |]; [| reflexivity].
    destruct (negb _); [| reflexivity].
    unfold Storage.getUser. cbn [users Storage.set_users].
    apply find_update_where_other; [reflexivity |].
    intros r Hr. apply Z.eqb_eq in Hr. rewrite Hr. now apply Z.eqb_neq.
  - intros user Hu. now apply updateUserBadge_stores_badge.
  - intros Hnone. unfold Storage.updateUserBadge. now rewrite Hnone.
Qed.

Lemma badge_refresh_writes_only_the_badge_witness :
  option_map badge
    (Storage.getUser
       (Storage.updateUserBadge
          (Storage.set_users Sample.forum
             [ {| user_id := 1; username := "alice"; userId := "1";
                  password := "h"; role := "user"; avatar := None;
                  banner := None; postCount := Some 30;
                  messageCount := Some 7; badge := Some "member" |} ]) 1) 1)
  = Some (Some "climber").
Proof.
  exact (proj1 (proj2 (proj2 (proj2 (proj2
    (badge_refresh_writes_only_the_badge
       (Storage.set_users Sample.forum
          [ {| user_id := 1; username := "alice"; userId := "1";
               password := "h"; role := "user"; avatar := None;
               banner := None; postCount := Some 30;
               messageCount := Some 7; badge := Some "member" |} ]) 1)))))
    _ eq_refl).
Defined.

(** X28.  Each badge covers an interval of totals: between two totals
    with the same badge every total has that badge.  So a badge changes
    only at a threshold; once the total has reached legendary-qube every
    larger total has it, and below a new-member total every total is
    new-member. *)
Theorem badge_tiers_are_intervals (t t' t'' : Z) :
  t <= t' <= t'' ->
  (Storage.newBadge t = Storage.newBadge t'' ->
   Storage.newBadge t' = Storage.newBadge t)
  /\ (Storage.newBadge t = "legendary-qube" ->
      Storage.newBadge t' = "legendary-qube")
  /\ (Storage.newBadge t'' = "new-member" ->
      Storage.newBadge t' = "new-member").
Proof.
  intros Hle. unfold Storage.newBadge.
  repeat match goal with
  | |- context [Z.leb ?a ?b] => destruct (Z.leb_spec a b)
  end; try lia; repeat split; intros Heq; try reflexivity; discriminate.
Qed.

Lemma badge_tiers_are_intervals_witness :
  Storage.newBadge 100 = Storage.newBadge 80.
Proof.
  refine (proj1 (badge_tiers_are_intervals 80 100 149 _) eq_refl). lia.
Defined.
